(** * py4DSTEM: the DataCube container, its binning engine and its metadata scraper

    A shallow embedding of [py4DSTEM/process/datastructure/datacube.py] and
    [py4DSTEM/process/datastructure/diffraction.py].

    - Python integers are [Z]; a float is kept abstractly ([pyfloat]), only
      its type and its comparison with [1] are ever used by the code.
    - A numpy array is its shape together with its elements in C (row-major)
      order.  Samples are integers: sums are exact.
    - A Python dictionary with string keys is a [gmap string _]; a dictionary
      that is only iterated over is the list of its items in iteration order.
    - A method that mutates [self] and may raise is a function to an
      [outcome]: the state of [self] when the method returns or when the
      exception leaves it. *)

From Stdlib Require Import ZArith QArith Lia.
From stdpp Require Import base numbers list strings gmap fin_maps.

Local Open Scope Z_scope.

(* ===================================================================== *)
(** ** Python values and exceptions *)
(* ===================================================================== *)

Inductive exn := ValueError | AssertionError | AttributeError.

(** A float: a finite one denotes a rational number. *)
Inductive pyfloat := Finite (q : Q) | PosInf | NegInf | NaN.

(** The numbers a binning factor can be. *)
Inductive pynum := PyInt (z : Z) | PyFloat (x : pyfloat).

(** [x <= 1] on floats; every comparison with NaN is false. *)
Definition pyfloat_le_1 (x : pyfloat) : bool :=
  match x with
  | Finite q => Qle_bool q 1
  | PosInf => false
  | NegInf => true
  | NaN => false
  end.

(** [n <= 1]. *)
Definition pynum_le_1 (n : pynum) : bool :=
  match n with
  | PyInt z => z <=? 1
  | PyFloat x => pyfloat_le_1 x
  end.

(** [type(n) is int]. *)
Definition type_is_int (n : pynum) : bool :=
  match n with
  | PyInt _ => true
  | PyFloat _ => false
  end.

(** [int(a / b)]: true division, then truncation towards zero. *)
Definition int_truediv (a b : Z) : Z := Z.quot a b.

(** What a method leaves behind: [self] on return, or [self] and the
    exception on a raise. *)
Inductive outcome (S : Type) :=
  | Return (self : S)
  | Raise (e : exn) (self : S).
Arguments Return {S} self.
Arguments Raise {S} e self.

Definition state_of {S : Type} (o : outcome S) : S :=
  match o with
  | Return s => s
  | Raise _ s => s
  end.

(* ===================================================================== *)
(** ** numpy arrays *)
(* ===================================================================== *)

Record ndarray := mk_ndarray { shape : list Z; flat : list Z }.

Definition prod (dims : list Z) : Z := foldr Z.mul 1 dims.

(** [a.size] *)
Definition size (a : ndarray) : Z := prod (shape a).

Definition sumZ (l : list Z) : Z := foldr Z.add 0 l.

(** [a.sum()] *)
Definition total (a : ndarray) : Z := sumZ (flat a).

(** What every numpy array satisfies: non-negative extents, and as many
    elements as the shape says. *)
Definition wf_ndarray (a : ndarray) : Prop :=
  Forall (fun d => 0 <= d) (shape a) /\ Z.of_nat (length (flat a)) = size a.

(** *** [a.reshape(newshape)]

    numpy's [_fix_unknown_dimension]: a negative entry of [newshape] marks
    the one dimension to infer ([-1] is the documented marker); two of them,
    an inferred dimension that does not divide, or a product different from
    [a.size] raise [ValueError], here [None].  The elements keep their C
    order. *)
Definition is_unknown (d : Z) : bool := d <? 0.

Definition known_prod (newshape : list Z) : Z :=
  prod (filter (fun d => is_unknown d = false) newshape).

Definition reshape (a : ndarray) (newshape : list Z) : option ndarray :=
  match filter (fun d => is_unknown d = true) newshape with
  | [] =>
      if size a =? prod newshape
      then Some (mk_ndarray newshape (flat a))
      else None
  | [_] =>
      let s_known := known_prod newshape in
      if (s_known =? 0) || negb (size a mod s_known =? 0)
      then None
      else Some (mk_ndarray
                   (map (fun d => if is_unknown d then size a / s_known else d)
                        newshape)
                   (flat a))
  | _ => None
  end.

(** *** Splitting C-ordered data along an axis

    With [shape = pre ++ d :: post], the data is [prod pre] blocks of
    [d * prod post] elements, each block [d] slabs of [prod post]. *)
Fixpoint chunks {A : Type} (n cnt : nat) (l : list A) : list (list A) :=
  match cnt with
  | O => []
  | S c => take n l :: chunks n c (drop n l)
  end.

Definition outer (k : nat) (a : ndarray) : nat :=
  Z.to_nat (prod (take k (shape a))).

Definition extent (k : nat) (a : ndarray) : Z := nth k (shape a) 0.

Definition inner (k : nat) (a : ndarray) : nat :=
  Z.to_nat (prod (drop (S k) (shape a))).

(** Number of indices the slice [[:stop]] selects on an axis of length [n]. *)
Definition slice_len (n stop : Z) : Z :=
  if stop <? 0 then Z.max 0 (n + stop) else Z.min stop n.

(** [a[..., :stop, ...]] with the slice on axis [k] and [:] elsewhere. *)
Definition take_axis (k : nat) (stop : Z) (a : ndarray) : ndarray :=
  let d := Z.to_nat (extent k a) in
  let m := slice_len (extent k a) stop in
  mk_ndarray
    (take k (shape a) ++ m :: drop (S k) (shape a))
    (concat (map (take (Z.to_nat m * inner k a))
                 (chunks (d * inner k a) (outer k a) (flat a)))).

(** Element-wise sum of the slabs of one block. *)
Definition sum_slabs (n : nat) (slabs : list (list Z)) : list Z :=
  foldr (zip_with Z.add) (replicate n 0) slabs.

(** [a.sum(axis=k)] *)
Definition sum_axis (k : nat) (a : ndarray) : ndarray :=
  let d := Z.to_nat (extent k a) in
  mk_ndarray
    (take k (shape a) ++ drop (S k) (shape a))
    (concat (map (fun blk => sum_slabs (inner k a) (chunks (inner k a) d blk))
                 (chunks (d * inner k a) (outer k a) (flat a)))).


(* ===================================================================== *)
(** ** Metadata: hyperspy trees and the search through them *)
(* ===================================================================== *)

(** What a leaf of the original metadata holds. *)
Inductive value :=
  | VInt (z : Z)
  | VFloat (x : pyfloat)
  | VStr (s : string).

(** A [DictionaryTreeBrowser]: its keys in the order [keys()] lists them,
    each with the node stored under it, a leaf value ([inl]) or again a
    [DictionaryTreeBrowser] ([inr]).  Being a dictionary, a tree lists no
    key twice. *)
#[local] Unset Elimination Schemes.
Inductive DictionaryTreeBrowser :=
  | DTB (items : list (string * (value + DictionaryTreeBrowser))).
#[local] Set Elimination Schemes.

Definition hs_node : Type := value + DictionaryTreeBrowser.

(** [istree_hs(node)], the test the search loop branches on; in
    [search_tree] it is the match on the node. *)
Definition istree_hs (node : hs_node) : bool :=
  match node with
  | inr _ => true
  | inl _ => false
  end.

(** The [-1] that [search_hs_tree] returns next to [False]. *)
Definition not_found_value : value := VInt (-1).

(** [search_hs_tree(key, hs_tree)] on a tree: the loop over [hs_tree.keys()]
    is the inner [fix]. *)
Fixpoint search_tree (key : string) (hs_tree : DictionaryTreeBrowser)
  : bool * value :=
  match hs_tree with
  | DTB l =>
      (fix loop (l : list (string * hs_node)) : bool * value :=
         match l with
         | [] => (false, not_found_value)
         | (hs_key, inl v) :: rest =>
             if String.eqb key hs_key then (true, v) else loop rest
         | (hs_key, inr sub) :: rest =>
             let '(found, val) := search_tree key sub in
             if found then (found, val) else loop rest
         end) l
  end.

(** [search_hs_tree(key, hs_tree)]; [None] is Python's [None]. *)
Definition search_hs_tree (key : string) (hs_tree : option DictionaryTreeBrowser)
  : bool * value :=
  match hs_tree with
  | None => (false, not_found_value)
  | Some t => search_tree key t
  end.

(** The inner [for key in keys] loop with its [break]. *)
Fixpoint try_keys (hs_tree : option DictionaryTreeBrowser) (attr : string)
    (keys : list string) (metadata_dict : gmap string value)
  : gmap string value :=
  match keys with
  | [] => metadata_dict
  | key :: rest =>
      let '(found, val) := search_hs_tree key hs_tree in
      if found then <[attr := val]> metadata_dict
      else try_keys hs_tree attr rest metadata_dict
  end.

(** [get_metadata_from_original_metadata(hs_tree, metadata_search_dict,
    metadata_dict)]; the search dictionary is only iterated over. *)
Definition get_metadata_from_original_metadata
    (hs_tree : option DictionaryTreeBrowser)
    (metadata_search_dict : list (string * list string))
    (metadata_dict : gmap string value) : gmap string value :=
  foldl (fun d item =>
           try_keys hs_tree item.1 item.2 (<[item.1 := VStr EmptyString]> d))
        metadata_dict metadata_search_dict.

(** [add_metadata_item(key, value, metadata_dict)] *)
Definition add_metadata_item (key : string) (v : value)
    (metadata_dict : gmap string value) : gmap string value :=
  <[key := v]> metadata_dict.

(** *** The search dictionaries of [setup_metadata_search_dicts] *)

Definition no_key : list string := [EmptyString].

Definition original_to_microscope_search_dict : list (string * list string) :=
  [ ("accelerating_voltage_kV", ["beam_energy"]);
    ("camera_length_mm", ["camera_length"]);
    ("C2_aperture", no_key);
    ("convergence_semiangle_mrad", no_key);
    ("spot_size", no_key);
    ("scan_rotation_degrees", no_key);
    ("dwell_time_ms", no_key);
    ("scan_size_Ny", no_key);
    ("scan_size_Nx", no_key);
    ("R_pix_size", no_key);
    ("R_units", no_key);
    ("K_pix_size", no_key);
    ("K_units", no_key);
    ("probe_FWHM_nm", no_key) ]%string.

Definition original_to_sample_search_dict : list (string * list string) :=
  [ ("sample_metadata_1", no_key);
    ("sample_metadata_2", no_key);
    ("sample_metadata_3", no_key) ]%string.

Definition original_to_user_search_dict : list (string * list string) :=
  [ ("user_metadata_1", no_key);
    ("user_metadata_2", no_key);
    ("user_metadata_3", no_key) ]%string.

Definition original_to_processing_search_dict : list (string * list string) :=
  [ ("original_filename", ["original_filename"]) ]%string.

Definition original_to_calibration_search_dict : list (string * list string) :=
  [ ("calibration_metadata_1", no_key);
    ("calibration_metadata_2", no_key);
    ("calibration_metadata_3", no_key) ]%string.

Definition original_to_comments_search_dict : list (string * list string) :=
  [ ("comments_metadata_1", no_key);
    ("comments_metadata_2", no_key);
    ("comments_metadata_3", no_key) ]%string.

(** The six dictionaries of [self.metadata], in the order [setup_metadata]
    fills them. *)
Inductive category :=
  | CatMicroscope
  | CatSample
  | CatUser
  | CatProcessing
  | CatCalibration
  | CatComments.

Definition search_dict (c : category) : list (string * list string) :=
  match c with
  | CatMicroscope => original_to_microscope_search_dict
  | CatSample => original_to_sample_search_dict
  | CatUser => original_to_user_search_dict
  | CatProcessing => original_to_processing_search_dict
  | CatCalibration => original_to_calibration_search_dict
  | CatComments => original_to_comments_search_dict
  end.

(** [self.metadata]: the two original trees and the six dictionaries. *)
Record MetadataCollection := mk_metadata {
  original_shortlist : option DictionaryTreeBrowser;
  original_all : option DictionaryTreeBrowser;
  microscope : gmap string value;
  sample : gmap string value;
  user : gmap string value;
  processing : gmap string value;
  calibration : gmap string value;
  comments : gmap string value
}.

Definition category_dict (c : category) (m : MetadataCollection)
  : gmap string value :=
  match c with
  | CatMicroscope => microscope m
  | CatSample => sample m
  | CatUser => user m
  | CatProcessing => processing m
  | CatCalibration => calibration m
  | CatComments => comments m
  end.

Definition set_category_dict (c : category) (d : gmap string value)
    (m : MetadataCollection) : MetadataCollection :=
  match c with
  | CatMicroscope =>
      mk_metadata (original_shortlist m) (original_all m)
        d (sample m) (user m) (processing m) (calibration m) (comments m)
  | CatSample =>
      mk_metadata (original_shortlist m) (original_all m)
        (microscope m) d (user m) (processing m) (calibration m) (comments m)
  | CatUser =>
      mk_metadata (original_shortlist m) (original_all m)
        (microscope m) (sample m) d (processing m) (calibration m) (comments m)
  | CatProcessing =>
      mk_metadata (original_shortlist m) (original_all m)
        (microscope m) (sample m) (user m) d (calibration m) (comments m)
  | CatCalibration =>
      mk_metadata (original_shortlist m) (original_all m)
        (microscope m) (sample m) (user m) (processing m) d (comments m)
  | CatComments =>
      mk_metadata (original_shortlist m) (original_all m)
        (microscope m) (sample m) (user m) (processing m) (calibration m) d
  end.

(** One call [self.get_metadata_from_original_metadata(tree,
    self.original_to_<c>_search_dict, self.metadata.<c>)]: the dictionary is
    updated in place. *)
Definition scrape (hs_tree : option DictionaryTreeBrowser) (c : category)
    (m : MetadataCollection) : MetadataCollection :=
  set_category_dict c
    (get_metadata_from_original_metadata hs_tree (search_dict c)
       (category_dict c m))
    m.

(** [setup_metadata(original_metadata_shortlist, original_metadata_all)]:
    six empty dictionaries, then the six calls on the complete tree, then
    the six calls on the shortlist. *)
Definition setup_metadata
    (original_metadata_shortlist original_metadata_all
     : option DictionaryTreeBrowser) : MetadataCollection :=
  let m := mk_metadata original_metadata_shortlist original_metadata_all
             ∅ ∅ ∅ ∅ ∅ ∅ in
  let m := scrape original_metadata_all CatMicroscope m in
  let m := scrape original_metadata_all CatSample m in
  let m := scrape original_metadata_all CatUser m in
  let m := scrape original_metadata_all CatProcessing m in
  let m := scrape original_metadata_all CatCalibration m in
  let m := scrape original_metadata_all CatComments m in
  let m := scrape original_metadata_shortlist CatMicroscope m in
  let m := scrape original_metadata_shortlist CatSample m in
  let m := scrape original_metadata_shortlist CatUser m in
  let m := scrape original_metadata_shortlist CatProcessing m in
  let m := scrape original_metadata_shortlist CatCalibration m in
  let m := scrape original_metadata_shortlist CatComments m in
  m.

(* ===================================================================== *)
(** ** The DataCube *)
(* ===================================================================== *)

Record DataCube := mk_DataCube {
  filename : option string;
  data4D : ndarray;
  R_Ny : Z;
  R_Nx : Z;
  Q_Ny : Z;
  Q_Nx : Z;
  R_N : Z;
  metadata : option MetadataCollection
}.

Definition set_data4D (self : DataCube) (a : ndarray) : DataCube :=
  {| filename := filename self; data4D := a;
     R_Ny := R_Ny self; R_Nx := R_Nx self;
     Q_Ny := Q_Ny self; Q_Nx := Q_Nx self;
     R_N := R_N self; metadata := metadata self |}.

Definition set_R (self : DataCube) (ny nx : Z) : DataCube :=
  {| filename := filename self; data4D := data4D self;
     R_Ny := ny; R_Nx := nx;
     Q_Ny := Q_Ny self; Q_Nx := Q_Nx self;
     R_N := R_N self; metadata := metadata self |}.

Definition set_metadata (self : DataCube) (m : MetadataCollection) : DataCube :=
  {| filename := filename self; data4D := data4D self;
     R_Ny := R_Ny self; R_Nx := R_Nx self;
     Q_Ny := Q_Ny self; Q_Nx := Q_Nx self;
     R_N := R_N self; metadata := Some m |}.

(** [set_scan_shape(R_Ny, R_Nx)]: both reshapes and the two assignments sit
    in the [try]; a [ValueError] of either reshape is swallowed before
    anything was assigned. *)
Definition set_scan_shape (self : DataCube) (ny nx : Z) : DataCube :=
  match reshape (data4D self) [R_N self; Q_Ny self; Q_Nx self] with
  | Some a3 =>
      match reshape a3 [ny; nx; Q_Ny self; Q_Nx self] with
      | Some a4 => set_R (set_data4D self a4) ny nx
      | None => self
      end
  | None => self
  end.

(** [DataCube(data, R_Ny, R_Nx, Q_Ny, Q_Nx, original_metadata_shortlist,
    original_metadata_all, filename)] *)
Definition DataCube_init (data : ndarray) (ny nx qy qx : Z)
    (original_metadata_shortlist original_metadata_all
     : option DictionaryTreeBrowser)
    (fname : option string) : DataCube :=
  let self := {| filename := fname; data4D := data;
                 R_Ny := ny; R_Nx := nx; Q_Ny := qy; Q_Nx := qx;
                 R_N := ny * nx; metadata := None |} in
  let self := set_scan_shape self ny nx in
  set_metadata self
    (setup_metadata original_metadata_shortlist original_metadata_all).

(** [bin_diffraction(bin_q)] *)
Definition bin_diffraction (self : DataCube) (bin_q : pynum)
  : outcome DataCube :=
  if pynum_le_1 bin_q then Return self
  else
    match bin_q with
    | PyFloat _ => Raise AssertionError self
    | PyInt f =>
        match shape (data4D self) with
        | [rny; rnx; qny; qnx] =>
            let self1 :=
              if (qny mod f =? 0) && (qnx mod f =? 0) then self
              else set_data4D self
                     (take_axis 3 (- (qnx mod f))
                        (take_axis 2 (- (qny mod f)) (data4D self))) in
            match reshape (data4D self1)
                    [rny; rnx; int_truediv qny f; f; int_truediv qnx f; f] with
            | Some a6 => Return (set_data4D self1 (sum_axis 3 (sum_axis 5 a6)))
            | None => Raise ValueError self1
            end
        | _ => Raise ValueError self
        end
    end.

(** [bin_real(bin_r)] *)
Definition bin_real (self : DataCube) (bin_r : pynum) : outcome DataCube :=
  if pynum_le_1 bin_r then Return self
  else
    match bin_r with
    | PyFloat _ => Raise AssertionError self
    | PyInt f =>
        match shape (data4D self) with
        | [rny; rnx; qny; qnx] =>
            let self1 :=
              if (rny mod f =? 0) && (rnx mod f =? 0) then self
              else set_data4D self
                     (take_axis 1 (- (rnx mod f))
                        (take_axis 0 (- (rny mod f)) (data4D self))) in
            match reshape (data4D self1)
                    [int_truediv rny f; f; int_truediv rnx f; f; qny; qnx] with
            | Some a6 => Return (set_data4D self1 (sum_axis 1 (sum_axis 3 a6)))
            | None => Raise ValueError self1
            end
        | _ => Raise ValueError self
        end
    end.

(** [cropAndBin(bin_r, bin_q, crop_r, crop_q, slice_ry, slice_rx, slice_qy,
    slice_qx)]: nothing is cropped yet, the crop arguments are not read; the
    diffraction axes are binned, then the real axes. *)
Definition cropAndBin (self : DataCube) (bin_r bin_q : pynum)
  : outcome DataCube :=
  match bin_diffraction self bin_q with
  | Return self1 => bin_real self1 bin_r
  | Raise e self1 => Raise e self1
  end.

(** The extents the DataCube records, as a shape. *)
Definition recorded_shape (self : DataCube) : list Z :=
  [R_Ny self; R_Nx self; Q_Ny self; Q_Nx self].

(* ===================================================================== *)
(** ** The DiffractionSlice *)
(* ===================================================================== *)

(** An instance attribute of a DiffractionSlice. *)
Inductive attribute :=
  | AttrCube (dc : DataCube)
  | AttrInt (z : Z)
  | AttrArray (a : ndarray).

(** [self.name] on a DiffractionSlice: the class defines [__init__] and
    nothing else and derives from [object], so a data attribute is found in
    the instance dictionary or not at all. *)
Definition getattr (self : gmap string attribute) (name : string)
  : exn + attribute :=
  match self !! name with
  | Some v => inr v
  | None => inl AttributeError
  end.

(** [DiffractionSlice(parentDataCube, data)], starting from the fresh
    instance.  The right-hand side of the tuple assignment is evaluated
    before any of its targets is assigned. *)
Definition DiffractionSlice_init (parentDataCube : DataCube) (data : ndarray)
  : outcome (gmap string attribute) :=
  let self : gmap string attribute := ∅ in
  let self := <["parentDataCube" := AttrCube parentDataCube]> self in
  match getattr self "parentDataCube" with
  | inl e => Raise e self
  | inr (AttrCube parent) =>
      let rhs1 := Q_Ny parent in
      match getattr self "Q_Nx" with
      | inl e => Raise e self
      | inr (AttrInt rhs2) =>
          let self := <["Q_Ny" := AttrInt rhs1]> self in
          let self := <["Q_Nx" := AttrInt rhs2]> self in
          if bool_decide (shape data = [rhs1; rhs2])
          then Return (<["data2D" := AttrArray data]> self)
          else Raise AssertionError self
      | inr _ => Raise AssertionError self
      end
  | inr _ => Raise AttributeError self
  end.

(* ===================================================================== *)
(** ** Reference readings of the search, for comparison with the code *)
(* ===================================================================== *)

(** The leaves of a tree, depth first, each subtree expanded in place. *)
Fixpoint leaves_preorder (t : DictionaryTreeBrowser) : list (string * value) :=
  match t with
  | DTB l =>
      (fix go (l : list (string * hs_node)) : list (string * value) :=
         match l with
         | [] => []
         | (k, inl v) :: rest => (k, v) :: go rest
         | (k, inr sub) :: rest => leaves_preorder sub ++ go rest
         end) l
  end.

(** The first leaf of a sequence that carries the key. *)
Fixpoint first_leaf (key : string) (leaves : list (string * value))
  : bool * value :=
  match leaves with
  | [] => (false, not_found_value)
  | (k, v) :: rest =>
      if String.eqb key k then (true, v) else first_leaf key rest
  end.

(** What one pass over a field's candidate keys settles on: the value of the
    first candidate the tree has, the empty string when it has none. *)
Fixpoint resolve (hs_tree : option DictionaryTreeBrowser) (keys : list string)
  : value :=
  match keys with
  | [] => VStr EmptyString
  | key :: rest =>
      if (search_hs_tree key hs_tree).1
      then (search_hs_tree key hs_tree).2
      else resolve hs_tree rest
  end.

(** Some candidate key of the field is found in the tree. *)
Definition resolves (hs_tree : option DictionaryTreeBrowser)
    (keys : list string) : bool :=
  existsb (fun key => (search_hs_tree key hs_tree).1) keys.

(** The trees of the running example: [{acquisition: {beam_energy: 200}}]
    and the empty tree. *)
Definition tree_200 : DictionaryTreeBrowser :=
  DTB [("acquisition", inr (DTB [("beam_energy", inl (VInt 200))]))]%string.

Definition tree_empty : DictionaryTreeBrowser := DTB [].

(* ===================================================================== *)
(** ** Notions the statements use *)
(* ===================================================================== *)

(** The final value of a field as C2 words it: the shortlist's value when
    the shortlist has a candidate key, the value resolved from the complete
    tree otherwise. *)
Definition merged_value (short all : option DictionaryTreeBrowser)
    (keys : list string) : value :=
  if resolves short keys then resolve short keys else resolve all keys.

(** The factor is greater than one, as a number. *)
Definition greater_than_1 (n : pynum) : Prop :=
  match n with
  | PyInt z => 1 < z
  | PyFloat (Finite q) => (1 < q)%Q
  | PyFloat PosInf => True
  | PyFloat _ => False
  end.

(** The two axis pairs and the method that bins each. *)
Inductive axis_pair := DiffractionAxes | RealAxes.

Definition bin (axes : axis_pair) (self : DataCube) (factor : pynum)
  : outcome DataCube :=
  match axes with
  | DiffractionAxes => bin_diffraction self factor
  | RealAxes => bin_real self factor
  end.

(** The extents of an axis pair in a four-dimensional shape. *)
Definition pair_extents (axes : axis_pair) (sh : list Z) : option (Z * Z) :=
  match sh, axes with
  | [_; _; qy; qx], DiffractionAxes => Some (qy, qx)
  | [ry; rx; _; _], RealAxes => Some (ry, rx)
  | _, _ => None
  end.

(* ===================================================================== *)
(** ** DataCubes to run the methods on *)
(* ===================================================================== *)

(** A 2 x 3 scan of 1 x 1 diffraction patterns. *)
Definition cube_2x3 : DataCube :=
  DataCube_init (mk_ndarray [2; 3; 1; 1] [1; 2; 3; 4; 5; 6]) 2 3 1 1
    None None None.

(** A 2 x 2 scan of 2 x 4 diffraction patterns. *)
Definition cube_2x2x2x4 : DataCube :=
  DataCube_init
    (mk_ndarray [2; 2; 2; 4]
       [1; 2; 3; 4; 5; 6; 7; 8; 1; 0; 0; 0; 0; 0; 0; 0;
        0; 1; 0; 0; 0; 0; 0; 0; 2; 2; 2; 2; 2; 2; 2; 2])
    2 2 2 4 None None None.

(** Extents that 2 does not divide. *)
Definition cube_1x1x2x5 : DataCube :=
  DataCube_init (mk_ndarray [1; 1; 2; 5] [1; 2; 3; 4; 9; 5; 6; 7; 8; 9])
    1 1 2 5 None None None.

Definition cube_1x1x5x2 : DataCube :=
  DataCube_init (mk_ndarray [1; 1; 5; 2] [1; 2; 3; 4; 5; 6; 7; 8; 9; 9])
    1 1 5 2 None None None.

Definition cube_2x5x1x1 : DataCube :=
  DataCube_init (mk_ndarray [2; 5; 1; 1] [1; 2; 3; 4; 9; 5; 6; 7; 8; 9])
    2 5 1 1 None None None.

Definition cube_1x1x3x5 : DataCube :=
  DataCube_init
    (mk_ndarray [1; 1; 3; 5] [1; 2; 3; 4; 9; 5; 6; 7; 8; 9; 9; 9; 9; 9; 9])
    1 1 3 5 None None None.

(* ===================================================================== *)
(** ** Induction on trees *)
(* ===================================================================== *)

(** Induction on trees: the property holds of a tree when it holds of
    every subtree among its children. *)
Fixpoint DictionaryTreeBrowser_ind (P : DictionaryTreeBrowser -> Prop)
    (step : forall l : list (string * hs_node),
        Forall (fun item => match item.2 with
                            | inl _ => True
                            | inr sub => P sub
                            end) l ->
        P (DTB l))
    (t : DictionaryTreeBrowser) {struct t} : P t :=
  match t with
  | DTB l =>
      step l
        ((fix all (l : list (string * hs_node)) :=
            match l return Forall (fun item => match item.2 with
                                               | inl _ => True
                                               | inr sub => P sub
                                               end) l with
            | [] => List.Forall_nil _
            | (k, node) :: rest =>
                @List.Forall_cons _ _ (k, node) rest
                  (match node return match node with
                                     | inl _ => True
                                     | inr sub => P sub
                                     end with
                   | inl _ => I
                   | inr sub => DictionaryTreeBrowser_ind P step sub
                   end)
                  (all rest)
            end) l)
  end.

(* ===================================================================== *)
(** ** Reading the array: indexing, slices, transposition *)
(* ===================================================================== *)

(** Exceptions of the read accessors: numpy's [IndexError] besides the
    ones above. *)
Inductive index_exn := IndexError | OtherError (e : exn).

(** What an accessor hands back as its first component: an image, or the
    integer it returns in place of one. *)
Inductive pyobj := ObjArray (a : ndarray) | ObjInt (z : Z).

(** [a[i]] with an integer [i]: an index from [-d] to [d - 1] on a first
    axis of length [d], a negative one counting from the end; anything else
    is an [IndexError], here [None]. *)
Definition index_first (a : ndarray) (i : Z) : option ndarray :=
  match shape a with
  | [] => None
  | d :: rest =>
      if (- d <=? i) && (i <? d)
      then
        let i' := if i <? 0 then i + d else i in
        let n := Z.to_nat (prod rest) in
        Some (mk_ndarray rest (take n (drop (Z.to_nat i' * n) (flat a))))
      else None
  end.

(** [a[y, x, :, :]]: four indices need four axes. *)
Definition index_yx (a : ndarray) (y x : Z) : option ndarray :=
  if (length (shape a) <? 4)%nat then None
  else index_first a y ≫= fun a1 => index_first a1 x.

(** The columns of a list of rows of length [n]. *)
Definition columns {A : Type} (n : nat) (rows : list (list A))
  : list (list A) :=
  foldr (zip_with cons) (replicate n []) rows.

(** The elements of [a.T] in C order: the axes are reversed, so the first
    axis of [a] becomes the last one. *)
Fixpoint transpose_flat (sh : list Z) (fl : list Z) : list Z :=
  match sh with
  | [] => fl
  | d :: rest =>
      let n := Z.to_nat (prod rest) in
      concat (columns n (map (transpose_flat rest) (chunks n (Z.to_nat d) fl)))
  end.

(** [a.T] *)
Definition T (a : ndarray) : ndarray :=
  mk_ndarray (rev (shape a)) (transpose_flat (shape a) (flat a)).

(** A Python [slice(start, stop, step)]; [None] for a part left out. *)
Record pyslice := mk_slice {
  sl_start : option Z;
  sl_stop : option Z;
  sl_step : option Z
}.

(** [:] *)
Definition full_slice : pyslice := mk_slice None None None.

(** Clipping of a given start or stop to an axis of length [n]
    (CPython's [PySlice_AdjustIndices]). *)
Definition adjust_index (n step v : Z) : Z :=
  if v <? 0
  then (if v + n <? 0 then (if step <? 0 then -1 else 0) else v + n)
  else (if v >=? n then (if step <? 0 then n - 1 else n) else v).

(** The indices a slice selects on an axis of length [n], in the order it
    visits them; a zero step is a [ValueError], here [None]. *)
Definition slice_indices (s : pyslice) (n : Z) : option (list Z) :=
  let step := default 1 (sl_step s) in
  if step =? 0 then None
  else
    let start := match sl_start s with
                 | None => if step <? 0 then n - 1 else 0
                 | Some v => adjust_index n step v
                 end in
    let stop := match sl_stop s with
                | None => if step <? 0 then -1 else n
                | Some v => adjust_index n step v
                end in
    let count :=
      if step <? 0
      then (if stop <? start then (start - stop - 1) / (- step) + 1 else 0)
      else (if start <? stop then (stop - start - 1) / step + 1 else 0) in
    Some (map (fun i => start + Z.of_nat i * step) (seq 0 (Z.to_nat count))).

(** The array with axis [k] reduced to the given indices, in their order. *)
Definition select_axis (k : nat) (idxs : list Z) (a : ndarray) : ndarray :=
  let d := Z.to_nat (extent k a) in
  mk_ndarray
    (take k (shape a) ++ Z.of_nat (length idxs) :: drop (S k) (shape a))
    (concat
       (map (fun blk =>
               concat (map (fun i => take (inner k a)
                                       (drop (Z.to_nat i * inner k a) blk))
                           idxs))
            (chunks (d * inner k a) (outer k a) (flat a)))).

(** [a[:, :, slice_y, slice_x]] *)
Definition slice_qq (a : ndarray) (slice_y slice_x : pyslice)
  : index_exn + ndarray :=
  if (length (shape a) <? 4)%nat then inl IndexError
  else
    match slice_indices slice_y (extent 2 a),
          slice_indices slice_x (extent 3 a) with
    | Some iy, Some ix => inr (select_axis 3 ix (select_axis 2 iy a))
    | _, _ => inl (OtherError ValueError)
    end.

(** [get_diffraction_space_view(y, x)]: the pair is what [self.x, self.y]
    are set to, the only attributes the method assigns; the [IndexError] of
    the indexing is caught. *)
Definition get_diffraction_space_view (self : DataCube) (y x : Z)
  : (Z * Z) * (pyobj * Z) :=
  ((x, y),
   match index_yx (data4D self) y x with
   | Some image => (ObjArray (T image), 1)
   | None => (ObjInt 0, 0)
   end).

(** [get_real_space_view(slice_y, slice_x)]; nothing is assigned and no
    exception is caught. *)
Definition get_real_space_view (self : DataCube) (slice_y slice_x : pyslice)
  : index_exn + (pyobj * Z) :=
  match slice_qq (data4D self) slice_y slice_x with
  | inl e => inl e
  | inr region => inr (ObjArray (T (sum_axis 2 (sum_axis 3 region))), 1)
  end.

(** *** Single samples *)

(** The length of axis [k], as a number of indices. *)
Definition dim (a : ndarray) (k : nat) : nat := Z.to_nat (extent k a).

(** [a[i0, i1, i2, i3]] of a four-dimensional array, indices in range. *)
Definition get4 (a : ndarray) (i0 i1 i2 i3 : nat) : Z :=
  nth (((i0 * dim a 1 + i1) * dim a 2 + i2) * dim a 3 + i3) (flat a) 0.

(** [a[i0, i1]] of a two-dimensional array, indices in range. *)
Definition get2 (a : ndarray) (i0 i1 : nat) : Z :=
  nth (i0 * dim a 1 + i1) (flat a) 0.

(** The sum of [g 0], ..., [g (n - 1)]. *)
Definition sum_over (n : nat) (g : nat -> Z) : Z := sumZ (map g (seq 0 n)).


(** The factor is at most one, as a number. *)
Definition at_most_1 (n : pynum) : Prop :=
  match n with
  | PyInt z => z <= 1
  | PyFloat (Finite q) => (q <= 1)%Q
  | PyFloat NegInf => True
  | PyFloat _ => False
  end.

(** What the constructor establishes and the reshape keeps: the array is a
    numpy array of the recorded shape, and [R_N] is the number of scan
    positions. *)
Definition consistent (self : DataCube) : Prop :=
  wf_ndarray (data4D self) /\
  shape (data4D self) = recorded_shape self /\
  R_N self = R_Ny self * R_Nx self.


(** A tree with the key of [tree_200] at the top as well, after the
    subtree. *)
Definition tree_two_levels : DictionaryTreeBrowser :=
  DTB [("acquisition", inr (DTB [("beam_energy", inl (VInt 200))]));
       ("beam_energy", inl (VInt 300))]%string.

(** * Properties *)

(* ===================================================================== *)
(** ** The tree search *)
(* ===================================================================== *)

Lemma search_tree_nil key :
  search_tree key (DTB []) = (false, not_found_value).
Proof. reflexivity. Qed.

Lemma search_tree_leaf key k v rest :
  search_tree key (DTB ((k, inl v) :: rest)) =
  if String.eqb key k then (true, v) else search_tree key (DTB rest).
Proof. reflexivity. Qed.

Lemma search_tree_subtree key k sub rest :
  search_tree key (DTB ((k, inr sub) :: rest)) =
  if (search_tree key sub).1 then search_tree key sub
  else search_tree key (DTB rest).
Proof.
  cbn [search_tree]. destruct (search_tree key sub) as [[] val]; reflexivity.
Qed.

Lemma leaves_preorder_leaf k v rest :
  leaves_preorder (DTB ((k, inl v) :: rest)) = (k, v) :: leaves_preorder (DTB rest).
Proof. reflexivity. Qed.

Lemma leaves_preorder_subtree k sub rest :
  leaves_preorder (DTB ((k, inr sub) :: rest)) =
  leaves_preorder sub ++ leaves_preorder (DTB rest).
Proof. reflexivity. Qed.

Lemma first_leaf_app key l1 l2 :
  first_leaf key (l1 ++ l2) =
  if (first_leaf key l1).1 then first_leaf key l1 else first_leaf key l2.
Proof.
  induction l1 as [|[k v] l1 IH]; cbn [first_leaf app]; [reflexivity|].
  destruct (String.eqb key k); [reflexivity|exact IH].
Qed.

Lemma search_tree_first_leaf key t :
  search_tree key t = first_leaf key (leaves_preorder t).
Proof.
  induction t as [l IH] using DictionaryTreeBrowser_ind.
  induction IH as [|[k [v|sub]] rest Hnode _ IHrest].
  - reflexivity.
  - rewrite search_tree_leaf, leaves_preorder_leaf, IHrest. reflexivity.
  - rewrite search_tree_subtree, leaves_preorder_subtree, first_leaf_app.
    cbn in Hnode. rewrite Hnode, IHrest. reflexivity.
Qed.

Lemma first_leaf_cases key leaves :
  first_leaf key leaves = (false, not_found_value) \/
  exists v, first_leaf key leaves = (true, v) /\ In (key, v) leaves.
Proof.
  induction leaves as [|[k v] rest IH]; cbn [first_leaf]; [by left|].
  destruct (String.eqb_spec key k) as [->|Hne].
  - right. exists v. split; [reflexivity|by left].
  - destruct IH as [IH|[w [IH Hin]]]; [by left|].
    right. exists w. split; [exact IH|by right].
Qed.

(** C10: on a tree that is not absent, the search goes through the children
    in their order: a leaf child with the target key ends it with
    [(true, value)], a subtree child is searched completely before its
    later siblings and a find inside it ends the search, and a tree gone
    through without a match gives [(false, -1)].  Taken together: the
    result is the first leaf, in depth-first order, that has the key. *)
Theorem C10_search_depth_first_preorder (key : string) :
  search_hs_tree key (Some (DTB [])) = (false, not_found_value) /\
  (forall k v rest,
      search_hs_tree key (Some (DTB ((k, inl v) :: rest))) =
      if String.eqb key k then (true, v)
      else search_hs_tree key (Some (DTB rest))) /\
  (forall k sub rest,
      search_hs_tree key (Some (DTB ((k, inr sub) :: rest))) =
      if (search_hs_tree key (Some sub)).1 then search_hs_tree key (Some sub)
      else search_hs_tree key (Some (DTB rest))) /\
  (forall t,
      search_hs_tree key (Some t) = first_leaf key (leaves_preorder t)).
Proof.
  split; [reflexivity|]. split; [|split].
  - intros k v rest. apply search_tree_leaf.
  - intros k sub rest. apply search_tree_subtree.
  - intros t. apply search_tree_first_leaf.
Qed.

(** C5, as the code has it: the search on an absent tree is [(False, -1)];
    on any tree the result is either exactly [(False, -1)] or [(True, v)]
    with [v] the value of a leaf of the tree under the key.  The [-1] is an
    ordinary integer, which a leaf may hold as well: only the flag tells
    absence from a find. *)
Theorem C5_not_found_is_false_minus_one
    (key : string) (hs_tree : option DictionaryTreeBrowser) :
  search_hs_tree key None = (false, VInt (-1)) /\
  (search_hs_tree key hs_tree = (false, VInt (-1)) \/
   exists v t,
     search_hs_tree key hs_tree = (true, v) /\
     hs_tree = Some t /\ In (key, v) (leaves_preorder t)).
Proof.
  split; [reflexivity|].
  destruct hs_tree as [t|]; [|by left].
  cbn [search_hs_tree]. rewrite search_tree_first_leaf.
  destruct (first_leaf_cases key (leaves_preorder t)) as [H|[v [H Hin]]].
  - by left.
  - right. exists v, t. by rewrite H.
Qed.

(** C5 does not hold as stated: the value returned with [False] is not
    set apart from the leaf values, a leaf holding [-1] is found as
    [(True, -1)]. *)
Lemma C5_sentinel_is_a_leaf_value :
  ~ (forall key hs_tree v,
        search_hs_tree key hs_tree = (true, v) -> v <> not_found_value).
Proof.
  intros H.
  apply (H "offset"%string
           (Some (DTB [("offset"%string, inl (VInt (-1)))])) (VInt (-1)));
    reflexivity.
Qed.

(* ===================================================================== *)
(** ** The metadata dictionaries *)
(* ===================================================================== *)

Lemma try_keys_resolve hs_tree attr keys (d : gmap string value) :
  try_keys hs_tree attr keys (<[attr := VStr EmptyString]> d) =
  <[attr := resolve hs_tree keys]> d.
Proof.
  induction keys as [|key rest IH]; cbn [try_keys resolve]; [reflexivity|].
  destruct (search_hs_tree key hs_tree) as [[] val]; cbn [fst snd].
  - apply insert_insert_eq.
  - exact IH.
Qed.

Lemma get_metadata_inserts hs_tree sd (d : gmap string value) :
  get_metadata_from_original_metadata hs_tree sd d =
  foldl (fun d item => <[item.1 := resolve hs_tree item.2]> d) d sd.
Proof.
  unfold get_metadata_from_original_metadata.
  revert d. induction sd as [|item sd IH]; intros d; cbn [foldl]; [reflexivity|].
  rewrite try_keys_resolve. apply IH.
Qed.

Lemma foldl_insert_other (f : list string -> value)
    (sd : list (string * list string)) (d : gmap string value) attr :
  attr ∉ sd.*1 ->
  foldl (fun d item => <[item.1 := f item.2]> d) d sd !! attr = d !! attr.
Proof.
  revert d. induction sd as [|[a ks] sd IH]; intros d Hnot; [reflexivity|].
  cbn [foldl fst snd]. rewrite fmap_cons in Hnot. cbn [fst] in Hnot.
  apply not_elem_of_cons in Hnot as [Hne Hnot].
  rewrite IH by exact Hnot. by apply lookup_insert_ne.
Qed.

Lemma foldl_insert_lookup (f : list string -> value)
    (sd : list (string * list string)) (d : gmap string value) attr keys :
  NoDup sd.*1 -> (attr, keys) ∈ sd ->
  foldl (fun d item => <[item.1 := f item.2]> d) d sd !! attr = Some (f keys).
Proof.
  revert d. induction sd as [|[a ks] sd IH]; intros d Hnd Hin.
  - by apply elem_of_nil in Hin.
  - rewrite fmap_cons in Hnd. cbn [fst] in Hnd.
    apply NoDup_cons in Hnd as [Hfresh Hnd].
    cbn [foldl fst snd].
    apply elem_of_cons in Hin as [Heq|Hin].
    + inversion Heq; subst a ks.
      rewrite foldl_insert_other by exact Hfresh. apply lookup_insert_eq.
    + by apply IH.
Qed.

Lemma search_dict_NoDup c : NoDup (search_dict c).*1.
Proof. destruct c; apply (bool_decide_unpack _); vm_compute; reflexivity. Qed.

Lemma setup_metadata_category c short all :
  category_dict c (setup_metadata short all) =
  get_metadata_from_original_metadata short (search_dict c)
    (get_metadata_from_original_metadata all (search_dict c) ∅).
Proof. destruct c; reflexivity. Qed.

(** What the two passes leave in a field: the value the shortlist pass
    settles on, whatever the complete tree had. *)
Lemma setup_metadata_lookup c short all attr keys :
  (attr, keys) ∈ search_dict c ->
  category_dict c (setup_metadata short all) !! attr = Some (resolve short keys).
Proof.
  intros Hin. rewrite setup_metadata_category, get_metadata_inserts.
  apply foldl_insert_lookup; [apply search_dict_NoDup|exact Hin].
Qed.

(** C2, at a complete tree [{acquisition: {beam_energy: 200}}] and a
    shortlist without the key (empty, or absent): the complete tree resolves
    [accelerating_voltage_kV] to [200], the shortlist does not resolve it,
    and in the DataCube constructed from them the field is the empty
    string, not the [200] the merge should retain. *)
Theorem C2_shortlist_pass_resets_the_field :
  let keys := ["beam_energy"%string] in
  let attr := "accelerating_voltage_kV"%string in
  (attr, keys) ∈ search_dict CatMicroscope /\
  resolve (Some tree_200) keys = VInt 200 /\
  resolves (Some tree_empty) keys = false /\
  merged_value (Some tree_empty) (Some tree_200) keys = VInt 200 /\
  (forall data ny nx qy qx fname,
      (metadata (DataCube_init data ny nx qy qx
                   (Some tree_empty) (Some tree_200) fname)
         ≫= fun m => microscope m !! attr)
      = Some (VStr EmptyString)) /\
  (forall data ny nx qy qx fname,
      (metadata (DataCube_init data ny nx qy qx
                   None (Some tree_200) fname)
         ≫= fun m => microscope m !! attr)
      = Some (VStr EmptyString)).
Proof.
  cbv zeta. split; [by left|].
  split; [reflexivity|]. split; [reflexivity|]. split; [reflexivity|].
  split; intros; vm_compute; reflexivity.
Qed.

(* ===================================================================== *)
(** ** The DiffractionSlice constructor *)
(* ===================================================================== *)

(** C4: whatever the parent DataCube and the data, [__init__] raises
    [AttributeError]: [self.Q_Nx] is read on the right-hand side when the
    instance has [parentDataCube] and nothing else.  Neither [Q_Ny],
    [Q_Nx] nor [data2D] is ever set, and the shape check is not reached. *)
Theorem C4_DiffractionSlice_init_raises (parentDataCube : DataCube)
    (data : ndarray) :
  DiffractionSlice_init parentDataCube data =
  Raise AttributeError (<["parentDataCube" := AttrCube parentDataCube]> ∅).
Proof.
  unfold DiffractionSlice_init, getattr.
  rewrite lookup_insert_eq.
  rewrite lookup_insert_ne by discriminate.
  rewrite lookup_empty. reflexivity.
Qed.

(* ===================================================================== *)
(** ** Binning: the factor *)
(* ===================================================================== *)

Lemma greater_than_1_not_le n : greater_than_1 n -> pynum_le_1 n = false.
Proof.
  destruct n as [z|[q| | |]]; cbn; try done.
  - intros H. apply Z.leb_gt. exact H.
  - intros H. destruct (Qle_bool q 1) eqn:E; [|reflexivity].
    apply Qle_bool_iff in E. exfalso. by apply (Qlt_not_le 1 q).
Qed.

(** C9: a factor greater than one that is not an [int] makes both binning
    methods raise on their [assert], the exception the specification calls
    InvalidBinningFactorError, with the DataCube exactly as it was. *)
Theorem C9_non_integer_factor_raises (self : DataCube) (factor : pynum) :
  type_is_int factor = false ->
  greater_than_1 factor ->
  bin_diffraction self factor = Raise AssertionError self /\
  bin_real self factor = Raise AssertionError self.
Proof.
  intros Hty Hgt. unfold bin_diffraction, bin_real.
  rewrite (greater_than_1_not_le _ Hgt).
  destruct factor as [z|x]; [discriminate Hty|]. split; reflexivity.
Qed.

Lemma C9_non_integer_factor_raises_witness :
  let self := cube_2x2x2x4 in
  let factor := PyFloat (Finite (5 # 2)) in
  type_is_int factor = false /\
  greater_than_1 factor /\
  bin_diffraction self factor = Raise AssertionError self /\
  bin_real self factor = Raise AssertionError self.
Proof.
  cbv zeta.
  assert (Hty : type_is_int (PyFloat (Finite (5 # 2))) = false) by reflexivity.
  assert (Hgt : greater_than_1 (PyFloat (Finite (5 # 2)))) by reflexivity.
  split; [exact Hty|]. split; [exact Hgt|].
  exact (C9_non_integer_factor_raises cube_2x2x2x4 _ Hty Hgt).
Defined.

(* ===================================================================== *)
(** ** Reshaping *)
(* ===================================================================== *)

Lemma filter_unknown_nonneg (dims : list Z) :
  Forall (fun d => 0 <= d) dims ->
  filter (fun d => is_unknown d = true) dims = [].
Proof.
  induction 1 as [|d dims Hd _ IH]; [reflexivity|].
  rewrite filter_cons_False; [exact IH|].
  unfold is_unknown. intros H. apply Z.ltb_lt in H. lia.
Qed.

(** Without a negative entry, a reshape is a comparison of sizes. *)
Lemma reshape_nonneg a newshape :
  Forall (fun d => 0 <= d) newshape ->
  reshape a newshape =
  if size a =? prod newshape then Some (mk_ndarray newshape (flat a)) else None.
Proof.
  intros H. unfold reshape. rewrite filter_unknown_nonneg by exact H.
  reflexivity.
Qed.

Lemma prod_infer (q : Z) (dims : list Z) :
  prod (map (fun d => if is_unknown d then q else d) dims) =
  prod (map (fun _ => q) (filter (fun d => is_unknown d = true) dims))
  * known_prod dims.
Proof.
  unfold known_prod.
  induction dims as [|d dims IH]; [reflexivity|].
  cbn [map prod foldr]. fold (prod (map (fun d => if is_unknown d then q else d) dims)).
  rewrite IH. destruct (is_unknown d) eqn:E.
  - rewrite (filter_cons_True (fun d => is_unknown d = true)) by exact E.
    rewrite (filter_cons_False (fun d => is_unknown d = false)) by congruence.
    cbn [map prod foldr]. unfold prod. lia.
  - rewrite (filter_cons_False (fun d => is_unknown d = true)) by congruence.
    rewrite (filter_cons_True (fun d => is_unknown d = false)) by exact E.
    cbn [map prod foldr]. unfold prod. lia.
Qed.

(** A reshape that succeeds keeps the elements and their number. *)
Lemma reshape_Some a newshape b :
  reshape a newshape = Some b -> flat b = flat a /\ size b = size a.
Proof.
  unfold reshape.
  destruct (filter (fun d => is_unknown d = true) newshape)
    as [|u [|u' us]] eqn:Hf; [| |discriminate].
  - destruct (size a =? prod newshape) eqn:E; [|discriminate].
    intros [= <-]. split; [reflexivity|].
    apply Z.eqb_eq in E. unfold size at 1. cbn [shape]. by rewrite <- E.
  - destruct ((known_prod newshape =? 0)
              || negb (size a mod known_prod newshape =? 0)) eqn:E;
      [discriminate|].
    apply orb_false_elim in E as [E0 Em].
    apply Z.eqb_neq in E0. apply negb_false_iff, Z.eqb_eq in Em.
    intros [= <-]. split; [reflexivity|].
    unfold size at 1. cbn [shape]. rewrite prod_infer, Hf.
    cbn [map prod foldr].
    rewrite Z.mul_1_r, Z.mul_comm.
    symmetry. apply Z.div_exact; assumption.
Qed.

(** Whether a reshape succeeds, and the shape it gives, depend on the
    size of the array alone. *)
Lemma reshape_same_size a b newshape a' :
  size b = size a ->
  reshape a newshape = Some a' ->
  reshape b newshape = Some (mk_ndarray (shape a') (flat b)).
Proof.
  intros Hs. unfold reshape. rewrite Hs.
  destruct (filter (fun d => is_unknown d = true) newshape)
    as [|u [|u' us]]; [| |discriminate].
  - destruct (size a =? prod newshape); [|discriminate]. by intros [= <-].
  - destruct ((known_prod newshape =? 0)
              || negb (size a mod known_prod newshape =? 0));
      [discriminate|]. by intros [= <-].
Qed.

(* ===================================================================== *)
(** ** [set_scan_shape] *)
(* ===================================================================== *)

Lemma DataCube_eta (self : DataCube) :
  set_R (set_data4D self (data4D self)) (R_Ny self) (R_Nx self) = self.
Proof. destruct self; reflexivity. Qed.

Lemma prod_4 (a b c d : Z) : prod [a; b; c; d] = a * b * c * d.
Proof. unfold prod. cbn [foldr]. lia. Qed.

Lemma Forall_nonneg_4 (a b c d : Z) :
  0 <= a -> 0 <= b -> 0 <= c -> 0 <= d ->
  Forall (fun d => 0 <= d) [a; b; c; d].
Proof. intros. repeat constructor; assumption. Qed.

(** The array is never anything but a reshape of itself. *)
Lemma set_scan_shape_flat self ny nx :
  flat (data4D (set_scan_shape self ny nx)) = flat (data4D self) /\
  size (data4D (set_scan_shape self ny nx)) = size (data4D self).
Proof.
  unfold set_scan_shape.
  destruct (reshape (data4D self) _) as [a3|] eqn:E3; [|done].
  destruct (reshape a3 _) as [a4|] eqn:E4; [|done].
  apply reshape_Some in E3 as [F3 S3]. apply reshape_Some in E4 as [F4 S4].
  cbn. split; congruence.
Qed.

(** A reshape that goes through with non-negative extents leaves the
    array in the shape the DataCube records. *)
Lemma set_scan_shape_recorded self ny nx :
  0 <= ny -> 0 <= nx -> 0 <= Q_Ny self -> 0 <= Q_Nx self ->
  shape (data4D self) = recorded_shape self ->
  shape (data4D (set_scan_shape self ny nx))
  = recorded_shape (set_scan_shape self ny nx).
Proof.
  intros Hy Hx Hqy Hqx Hrec. unfold set_scan_shape.
  destruct (reshape (data4D self) _) as [a3|] eqn:E3; [|exact Hrec].
  rewrite (reshape_nonneg a3) by (by apply Forall_nonneg_4).
  destruct (size a3 =? _); [reflexivity|exact Hrec].
Qed.

Lemma set_scan_shape_back self ny nx :
  wf_ndarray (data4D self) ->
  shape (data4D self) = recorded_shape self ->
  set_scan_shape (set_scan_shape self ny nx) (R_Ny self) (R_Nx self) = self.
Proof.
  intros [Hnn Hlen] Hrec.
  assert (Htarget : Forall (fun d => 0 <= d)
                      [R_Ny self; R_Nx self; Q_Ny self; Q_Nx self])
    by (fold (recorded_shape self); by rewrite <- Hrec).
  assert (Hsize : size (data4D self)
                  = prod [R_Ny self; R_Nx self; Q_Ny self; Q_Nx self])
    by (unfold size; by rewrite Hrec).
  assert (Hback : forall a3 : ndarray,
             size a3 = size (data4D self) -> flat a3 = flat (data4D self) ->
             reshape a3 [R_Ny self; R_Nx self; Q_Ny self; Q_Nx self]
             = Some (data4D self)).
  { intros a3 S3 F3. rewrite reshape_nonneg by exact Htarget.
    rewrite S3, Hsize, Z.eqb_refl, F3. f_equal.
    unfold recorded_shape in Hrec. rewrite <- Hrec.
    destruct (data4D self); reflexivity. }
  unfold set_scan_shape at 2.
  destruct (reshape (data4D self) [R_N self; Q_Ny self; Q_Nx self])
    as [a3|] eqn:E3.
  - destruct (reshape a3 [ny; nx; Q_Ny self; Q_Nx self]) as [a4|] eqn:E4.
    + pose proof (reshape_Some _ _ _ E3) as [F3 S3].
      pose proof (reshape_Some _ _ _ E4) as [F4 S4].
      unfold set_scan_shape. cbn [data4D set_R set_data4D R_N Q_Ny Q_Nx].
      assert (S43 : size a4 = size (data4D self)) by congruence.
      rewrite (reshape_same_size (data4D self) a4 _ a3 S43 E3).
      rewrite Hback; [destruct self; reflexivity|exact S3|cbn [flat]; congruence].
    + unfold set_scan_shape. rewrite E3.
      pose proof (reshape_Some _ _ _ E3) as [F3 S3].
      rewrite Hback by assumption. apply DataCube_eta.
  - unfold set_scan_shape. by rewrite E3.
Qed.


(** C6, as the code has it: a request with non-negative extents, on a
    DataCube whose recorded diffraction extents are non-negative, whose
    element count differs from that of the array leaves the DataCube as it
    was.  [set_scan_shape] swallows the [ValueError] of the reshape and has
    no other way out than returning. *)
Theorem C6_incompatible_reshape_is_a_no_op (self : DataCube) (ny nx : Z) :
  0 <= ny -> 0 <= nx -> 0 <= Q_Ny self -> 0 <= Q_Nx self ->
  ny * nx * Q_Ny self * Q_Nx self <> size (data4D self) ->
  set_scan_shape self ny nx = self.
Proof.
  intros Hy Hx Hqy Hqx Hne. unfold set_scan_shape.
  destruct (reshape (data4D self) _) as [a3|] eqn:E3; [|reflexivity].
  apply reshape_Some in E3 as [_ S3].
  rewrite reshape_nonneg by (by apply Forall_nonneg_4).
  rewrite prod_4, S3.
  destruct (Z.eqb_spec (size (data4D self)) (ny * nx * Q_Ny self * Q_Nx self));
    [congruence|reflexivity].
Qed.

Lemma C6_incompatible_reshape_is_a_no_op_witness :
  0 <= 4 /\ 0 <= 2 /\ 0 <= Q_Ny cube_2x3 /\ 0 <= Q_Nx cube_2x3 /\
  4 * 2 * Q_Ny cube_2x3 * Q_Nx cube_2x3 <> size (data4D cube_2x3) /\
  set_scan_shape cube_2x3 4 2 = cube_2x3.
Proof.
  assert (Hy : 0 <= 4) by lia.
  assert (Hx : 0 <= 2) by lia.
  assert (Hqy : 0 <= Q_Ny cube_2x3) by (vm_compute; discriminate).
  assert (Hqx : 0 <= Q_Nx cube_2x3) by (vm_compute; discriminate).
  assert (Hne : 4 * 2 * Q_Ny cube_2x3 * Q_Nx cube_2x3
                <> size (data4D cube_2x3)) by (vm_compute; discriminate).
  repeat (split; [assumption|]).
  exact (C6_incompatible_reshape_is_a_no_op cube_2x3 4 2 Hy Hx Hqy Hqx Hne).
Defined.

(** C6 does not hold for every request: [-1] is numpy's mark for an extent
    to infer, so [set_scan_shape(-1, 2)] on a 2 x 3 scan reshapes it to
    3 x 2 and records [R_Ny = -1], although [-1 * 2 * 1 * 1] is not the
    element count. *)
Lemma C6_inferred_extent_reshapes :
  ~ (forall (self : DataCube) (ny nx : Z),
        ny * nx * Q_Ny self * Q_Nx self <> size (data4D self) ->
        set_scan_shape self ny nx = self).
Proof.
  intros H. specialize (H cube_2x3 (-1) 2).
  assert (Hne : -1 * 2 * Q_Ny cube_2x3 * Q_Nx cube_2x3
                <> size (data4D cube_2x3)) by (vm_compute; discriminate).
  specialize (H Hne). apply (f_equal R_Ny) in H.
  vm_compute in H. discriminate H.
Qed.

(** With non-negative extents and the right element count the reshape goes
    through and the array has the requested shape. *)
Lemma set_scan_shape_reshapes (self : DataCube) (ny nx : Z) :
  wf_ndarray (data4D self) ->
  shape (data4D self) = recorded_shape self ->
  R_N self = R_Ny self * R_Nx self ->
  0 <= ny -> 0 <= nx ->
  ny * nx * Q_Ny self * Q_Nx self = size (data4D self) ->
  shape (data4D (set_scan_shape self ny nx)) = [ny; nx; Q_Ny self; Q_Nx self].
Proof.
  intros Hwf Hrec HN Hy Hx Hvalid.
  destruct Hwf as [Hnn _]. rewrite Hrec in Hnn.
  unfold recorded_shape in Hnn.
  apply Forall_cons in Hnn as [H0 Hnn]. apply Forall_cons in Hnn as [H1 Hnn].
  apply Forall_cons in Hnn as [H2 Hnn]. apply Forall_cons in Hnn as [H3 _].
  assert (Hsz : size (data4D self)
                = R_Ny self * R_Nx self * Q_Ny self * Q_Nx self)
    by (unfold size; rewrite Hrec; apply prod_4).
  unfold set_scan_shape.
  rewrite (reshape_nonneg (data4D self)) by (repeat constructor; lia).
  replace (prod [R_N self; Q_Ny self; Q_Nx self]) with (size (data4D self))
    by (rewrite Hsz, HN; unfold prod; cbn [foldr]; lia).
  rewrite Z.eqb_refl.
  rewrite reshape_nonneg by (by apply Forall_nonneg_4).
  unfold size at 1. cbn [shape].
  replace (prod [R_N self; Q_Ny self; Q_Nx self]) with (prod [ny; nx; Q_Ny self; Q_Nx self])
    by (rewrite prod_4, Hvalid, Hsz, HN; unfold prod; cbn [foldr]; lia).
  rewrite Z.eqb_refl. reflexivity.
Qed.

(** C8: on a DataCube whose array has the recorded shape, reshaping the scan
    to a shape with the right element count and then back to the original
    scan shape gives back the DataCube it started from, array and recorded
    extents; in between, the elements are those of the original in the same
    order. *)
Theorem C8_reshape_round_trip (self : DataCube) (ny nx : Z) :
  wf_ndarray (data4D self) ->
  shape (data4D self) = recorded_shape self ->
  ny * nx * Q_Ny self * Q_Nx self = size (data4D self) ->
  set_scan_shape (set_scan_shape self ny nx) (R_Ny self) (R_Nx self) = self /\
  flat (data4D (set_scan_shape self ny nx)) = flat (data4D self).
Proof.
  intros Hwf Hrec Hvalid.
  split; [by apply set_scan_shape_back|apply set_scan_shape_flat].
Qed.

Lemma C8_reshape_round_trip_witness :
  wf_ndarray (data4D cube_2x3) /\
  shape (data4D cube_2x3) = recorded_shape cube_2x3 /\
  3 * 2 * Q_Ny cube_2x3 * Q_Nx cube_2x3 = size (data4D cube_2x3) /\
  set_scan_shape (set_scan_shape cube_2x3 3 2) 2 3 = cube_2x3 /\
  flat (data4D (set_scan_shape cube_2x3 3 2)) = [1; 2; 3; 4; 5; 6].
Proof.
  assert (Hwf : wf_ndarray (data4D cube_2x3))
    by (split; [repeat constructor; vm_compute; discriminate|reflexivity]).
  assert (Hrec : shape (data4D cube_2x3) = recorded_shape cube_2x3)
    by reflexivity.
  assert (Hvalid : 3 * 2 * Q_Ny cube_2x3 * Q_Nx cube_2x3
                   = size (data4D cube_2x3)) by reflexivity.
  repeat (split; [assumption|]).
  exact (C8_reshape_round_trip cube_2x3 3 2 Hwf Hrec Hvalid).
Defined.

Example set_scan_shape_3x2 :
  data4D (set_scan_shape cube_2x3 3 2)
  = mk_ndarray [3; 2; 1; 1] [1; 2; 3; 4; 5; 6].
Proof. reflexivity. Qed.

(* ===================================================================== *)
(** ** Sums over blocks of C-ordered data *)
(* ===================================================================== *)

Lemma sumZ_app (l1 l2 : list Z) : sumZ (l1 ++ l2) = sumZ l1 + sumZ l2.
Proof.
  unfold sumZ. induction l1 as [|x l1 IH]; cbn [app foldr]; [reflexivity|].
  rewrite IH. lia.
Qed.

Lemma sumZ_replicate_0 (n : nat) : sumZ (replicate n 0) = 0.
Proof. unfold sumZ. induction n as [|n IH]; cbn; [reflexivity|exact IH]. Qed.

Lemma sumZ_zip_with_add (l1 l2 : list Z) :
  length l1 = length l2 ->
  sumZ (zip_with Z.add l1 l2) = sumZ l1 + sumZ l2.
Proof.
  revert l2. induction l1 as [|x l1 IH]; intros [|y l2] Hlen;
    try discriminate Hlen; [reflexivity|].
  injection Hlen as Hlen. specialize (IH l2 Hlen).
  unfold sumZ in *. cbn [zip_with foldr]. rewrite IH. lia.
Qed.

Lemma chunks_concat {A : Type} (n cnt : nat) (l : list A) :
  length l = (cnt * n)%nat -> concat (chunks n cnt l) = l.
Proof.
  revert l. induction cnt as [|c IH]; intros l Hlen; cbn [chunks concat].
  - by destruct l.
  - rewrite IH; [apply take_drop|]. rewrite length_drop. lia.
Qed.

Lemma chunks_each_length {A : Type} (n cnt : nat) (l : list A) :
  length l = (cnt * n)%nat ->
  Forall (fun chunk => length chunk = n) (chunks n cnt l).
Proof.
  revert l. induction cnt as [|c IH]; intros l Hlen; cbn [chunks];
    constructor.
  - rewrite length_take. lia.
  - apply IH. rewrite length_drop. lia.
Qed.

Lemma chunks_length {A : Type} (n cnt : nat) (l : list A) :
  length (chunks n cnt l) = cnt.
Proof.
  revert l. induction cnt as [|c IH]; intros l; cbn [chunks length];
    [reflexivity|]. by rewrite IH.
Qed.

Lemma sum_slabs_spec (n : nat) (slabs : list (list Z)) :
  Forall (fun slab => length slab = n) slabs ->
  length (sum_slabs n slabs) = n /\
  sumZ (sum_slabs n slabs) = sumZ (concat slabs).
Proof.
  unfold sum_slabs.
  induction 1 as [|slab slabs Hlen _ [IHlen IHsum]]; cbn [foldr concat].
  - split; [apply length_replicate|apply sumZ_replicate_0].
  - split.
    + rewrite length_zip_with. lia.
    + rewrite sumZ_zip_with_add by lia. rewrite sumZ_app. lia.
Qed.

Lemma sum_slabs_block (n d : nat) (blk : list Z) :
  length blk = (d * n)%nat ->
  length (sum_slabs n (chunks n d blk)) = n /\
  sumZ (sum_slabs n (chunks n d blk)) = sumZ blk.
Proof.
  intros Hlen.
  destruct (sum_slabs_spec n (chunks n d blk)) as [Hl Hs];
    [by apply chunks_each_length|].
  split; [exact Hl|]. rewrite Hs. by rewrite chunks_concat.
Qed.

Lemma per_block (g : list Z -> list Z) (m : nat) (blocks : list (list Z)) :
  Forall (fun blk => length (g blk) = m /\ sumZ (g blk) = sumZ blk) blocks ->
  length (concat (map g blocks)) = (length blocks * m)%nat /\
  sumZ (concat (map g blocks)) = sumZ (concat blocks).
Proof.
  induction 1 as [|blk blocks [Hl Hs] _ [IHl IHs]]; cbn [map concat length].
  - done.
  - split.
    + rewrite length_app. lia.
    + rewrite !sumZ_app. lia.
Qed.

(* ===================================================================== *)
(** ** Shapes split at an axis *)
(* ===================================================================== *)

Lemma prod_app (l1 l2 : list Z) : prod (l1 ++ l2) = prod l1 * prod l2.
Proof.
  unfold prod. induction l1 as [|x l1 IH]; cbn [app foldr]; [lia|].
  rewrite IH. lia.
Qed.

Lemma prod_nonneg (dims : list Z) :
  Forall (fun d => 0 <= d) dims -> 0 <= prod dims.
Proof.
  unfold prod. induction 1 as [|d dims Hd _ IH]; cbn [foldr]; lia.
Qed.

Lemma shape_split (k : nat) (a : ndarray) :
  (k < length (shape a))%nat ->
  shape a = take k (shape a) ++ extent k a :: drop (S k) (shape a).
Proof.
  intros Hk. unfold extent.
  destruct (lookup_lt_is_Some_2 (shape a) k Hk) as [d Hd].
  rewrite (nth_lookup_Some _ _ 0 d Hd).
  symmetry. by apply take_drop_middle.
Qed.

Lemma wf_axis (k : nat) (a : ndarray) :
  wf_ndarray a -> (k < length (shape a))%nat ->
  0 <= prod (take k (shape a)) /\ 0 <= extent k a /\
  0 <= prod (drop (S k) (shape a)) /\
  length (flat a)
  = (outer k a * (Z.to_nat (extent k a) * inner k a))%nat.
Proof.
  intros [Hnn Hlen] Hk.
  pose proof (shape_split k a Hk) as Hsplit.
  assert (Hpre : 0 <= prod (take k (shape a)))
    by (apply prod_nonneg; by apply Forall_take).
  assert (Hpost : 0 <= prod (drop (S k) (shape a)))
    by (apply prod_nonneg; by apply Forall_drop).
  assert (Hd : 0 <= extent k a).
  { rewrite Hsplit in Hnn. apply Forall_app in Hnn as [_ Hnn].
    by apply Forall_cons in Hnn as [Hd _]. }
  repeat split; try assumption.
  unfold outer, inner. unfold size in Hlen.
  rewrite Hsplit, prod_app in Hlen.
  change (prod (extent k a :: drop (S k) (shape a)))
    with (extent k a * prod (drop (S k) (shape a))) in Hlen.
  rewrite <- !Z2Nat.inj_mul by lia. lia.
Qed.

(** Summing over an axis keeps the sum of all elements, and gives an array
    as numpy has them. *)
Lemma sum_axis_total (k : nat) (a : ndarray) :
  wf_ndarray a -> (k < length (shape a))%nat ->
  wf_ndarray (sum_axis k a) /\ total (sum_axis k a) = total a.
Proof.
  intros Hwf Hk.
  destruct (wf_axis k a Hwf Hk) as (Hpre & Hd & Hpost & Hlen).
  set (d := Z.to_nat (extent k a)) in *.
  set (g := fun blk => sum_slabs (inner k a) (chunks (inner k a) d blk)).
  destruct (per_block g (inner k a)
              (chunks (d * inner k a) (outer k a) (flat a))) as [Hl Hs].
  { eapply Forall_impl; [apply chunks_each_length; exact Hlen|].
    intros blk Hblk. by apply sum_slabs_block. }
  rewrite chunks_length in Hl. rewrite chunks_concat in Hs by exact Hlen.
  split; [|exact Hs].
  split; cbn [shape flat sum_axis].
  - destruct Hwf as [Hnn _]. apply Forall_app. split.
    + by apply Forall_take.
    + by apply Forall_drop.
  - fold d. fold g. rewrite Hl. unfold size, sum_axis. cbn [shape].
    rewrite prod_app. unfold outer, inner. lia.
Qed.

(* ===================================================================== *)
(** ** Binning *)
(* ===================================================================== *)

Lemma wf_shape_4 (a : ndarray) (d0 d1 d2 d3 : Z) :
  wf_ndarray a -> shape a = [d0; d1; d2; d3] ->
  0 <= d0 /\ 0 <= d1 /\ 0 <= d2 /\ 0 <= d3 /\
  Z.of_nat (length (flat a)) = d0 * d1 * d2 * d3.
Proof.
  intros [Hnn Hlen] Hsh. unfold size in Hlen. rewrite Hsh in Hnn, Hlen.
  rewrite prod_4 in Hlen.
  apply Forall_cons in Hnn as [H0 Hnn]. apply Forall_cons in Hnn as [H1 Hnn].
  apply Forall_cons in Hnn as [H2 Hnn]. apply Forall_cons in Hnn as [H3 _].
  auto.
Qed.

Lemma int_truediv_exact (n f : Z) :
  0 <= n -> 1 < f -> n mod f = 0 ->
  0 <= int_truediv n f /\ int_truediv n f = n / f /\ int_truediv n f * f = n.
Proof.
  intros Hn Hf Hmod. unfold int_truediv.
  rewrite Z.quot_div_nonneg by lia.
  split; [apply Z.div_pos; lia|]. split; [reflexivity|].
  rewrite Z.mul_comm. symmetry. apply Z.div_exact; lia.
Qed.

Lemma prod_6 (a b c d e f : Z) : prod [a; b; c; d; e; f] = a * b * c * d * e * f.
Proof. unfold prod. cbn [foldr]. lia. Qed.






Example bin_diffraction_2x2x2x4 :
  bin_diffraction cube_2x2x2x4 (PyInt 2)
  = Return (set_data4D cube_2x2x2x4
              (mk_ndarray [2; 2; 1; 2] [14; 22; 1; 0; 1; 0; 8; 8])).
Proof. reflexivity. Qed.

Example bin_real_2x2x2x4 :
  bin_real cube_2x2x2x4 (PyInt 2)
  = Return (set_data4D cube_2x2x2x4
              (mk_ndarray [1; 1; 2; 4] [4; 5; 5; 6; 7; 8; 9; 10])).
Proof. reflexivity. Qed.

(** *** Extents that the factor does not divide *)

(** The slices [:-p] the code takes: all but the last [p] indices when
    [p > 0], and nothing at all when [p = 0]. *)
Lemma slice_len_neg (n p : Z) :
  0 <= p <= n ->
  slice_len n (- p) = if p =? 0 then 0 else n - p.
Proof.
  intros Hp. unfold slice_len.
  destruct (Z.eqb_spec p 0) as [->|Hne].
  - change (- 0) with 0. rewrite Z.ltb_irrefl. lia.
  - destruct (Z.ltb_spec (- p) 0); lia.
Qed.

Lemma int_truediv_floor (n f : Z) :
  0 <= n -> 1 < f ->
  0 <= int_truediv n f /\ int_truediv n f = n / f /\
  int_truediv n f * f = n - n mod f /\ 0 <= n mod f <= n.
Proof.
  intros Hn Hf. unfold int_truediv. rewrite Z.quot_div_nonneg by lia.
  pose proof (Z.div_mod n f ltac:(lia)) as Hdm.
  pose proof (Z.mod_pos_bound n f ltac:(lia)) as Hb.
  pose proof (Z.div_pos n f Hn ltac:(lia)) as Hq.
  split; [exact Hq|]. split; [reflexivity|]. split; [lia|].
  split; [lia|]. nia.
Qed.

(** When the factor divides neither extent of the diffraction pair, the
    trailing remainders are cut off and the binning goes through. *)
Lemma bin_diffraction_two_remainders (self : DataCube) (f ry rx qy qx : Z) :
  wf_ndarray (data4D self) ->
  shape (data4D self) = [ry; rx; qy; qx] ->
  1 < f -> qy mod f <> 0 -> qx mod f <> 0 ->
  exists self',
    bin_diffraction self (PyInt f) = Return self' /\
    shape (data4D self') = [ry; rx; qy / f; qx / f].
Proof.
  intros Hwf Hsh Hf Hy Hx.
  destruct (wf_shape_4 _ _ _ _ _ Hwf Hsh) as (H0 & H1 & H2 & H3 & Hlen).
  destruct (int_truediv_floor qy f H2 Hf) as (Hqy & Eqy & Mqy & Byy).
  destruct (int_truediv_floor qx f H3 Hf) as (Hqx & Eqx & Mqx & Bxx).
  unfold bin_diffraction. cbn [pynum_le_1].
  destruct (Z.leb_spec f 1) as [|_]; [lia|].
  rewrite Hsh.
  destruct (Z.eqb_spec (qy mod f) 0) as [|_]; [contradiction|].
  cbn [andb data4D set_data4D].
  rewrite reshape_nonneg by (repeat constructor; lia).
  unfold size, take_axis, extent. cbn [shape]. rewrite Hsh.
  cbn [take drop nth app]. rewrite !slice_len_neg by lia.
  destruct (Z.eqb_spec (qy mod f) 0) as [|_]; [contradiction|].
  destruct (Z.eqb_spec (qx mod f) 0) as [|_]; [contradiction|].
  rewrite prod_4, prod_6.
  replace (ry * rx * int_truediv qy f * f * int_truediv qx f * f)
    with (ry * rx * (qy - qy mod f) * (qx - qx mod f)) by nia.
  rewrite Z.eqb_refl.
  eexists. split; [reflexivity|].
  cbn. by rewrite <- Eqy, <- Eqx.
Qed.

(** When the factor divides the first extent of the diffraction pair and
    not the second, the slice [:-0] on the first leaves no sample; unless
    the binned array would be empty, the reshape then raises, after the
    emptied array was stored. *)
Lemma bin_diffraction_one_remainder (self : DataCube) (f ry rx qy qx : Z) :
  wf_ndarray (data4D self) ->
  shape (data4D self) = [ry; rx; qy; qx] ->
  1 < f -> qy mod f = 0 -> qx mod f <> 0 ->
  0 < ry * rx * (qy / f) * (qx / f) ->
  exists emptied,
    bin_diffraction self (PyInt f) = Raise ValueError (set_data4D self emptied) /\
    shape emptied = [ry; rx; 0; qx - qx mod f].
Proof.
  intros Hwf Hsh Hf Hy Hx Hpos.
  destruct (wf_shape_4 _ _ _ _ _ Hwf Hsh) as (H0 & H1 & H2 & H3 & Hlen).
  destruct (int_truediv_floor qy f H2 Hf) as (Hqy & Eqy & Mqy & Byy).
  destruct (int_truediv_floor qx f H3 Hf) as (Hqx & Eqx & Mqx & Bxx).
  unfold bin_diffraction. cbn [pynum_le_1].
  destruct (Z.leb_spec f 1) as [|_]; [lia|].
  rewrite Hsh.
  destruct (Z.eqb_spec (qx mod f) 0) as [|_]; [contradiction|].
  rewrite andb_false_r. cbn [data4D set_data4D].
  rewrite reshape_nonneg by (repeat constructor; lia).
  unfold size. unfold take_axis at 1 2. unfold extent. cbn [shape]. rewrite Hsh.
  cbn [take drop nth app]. rewrite !slice_len_neg by lia.
  rewrite Hy. cbn [Z.eqb].
  destruct (Z.eqb_spec (qx mod f) 0) as [|_]; [contradiction|].
  rewrite prod_4, prod_6, Eqy, Eqx.
  destruct (Z.eqb_spec (ry * rx * 0 * (qx - qx mod f))
              (ry * rx * (qy / f) * f * (qx / f) * f)) as [E|_]; [nia|].
  eexists. split; [reflexivity|].
  unfold take_axis, extent. cbn [shape]. rewrite Hsh. cbn [take drop nth app].
  rewrite !slice_len_neg by lia. cbn [Z.eqb].
  destruct (Z.eqb_spec (qx mod f) 0) as [|_]; [contradiction|]. reflexivity.
Qed.

(** With both remainders positive the trailing row and column are dropped
    and each output sample is the sum of its 2 x 2 bin. *)
Example bin_diffraction_1x1x3x5 :
  bin_diffraction cube_1x1x3x5 (PyInt 2)
  = Return (set_data4D cube_1x1x3x5 (mk_ndarray [1; 1; 1; 2] [14; 22])).
Proof. reflexivity. Qed.

(** C3, at diffraction extents 2 x 5 and factor 2: the factor divides the
    first extent and leaves a remainder of 1 on the second.  Dropping the
    trailing column would give the 1 x 2 bins [14; 22]; the code slices the
    first axis with [:-0], is left with no sample, stores that array and
    raises [ValueError] in the reshape.  The same on extents 5 x 2, and in
    [bin_real] on a 2 x 5 scan. *)
Theorem C3_one_sided_remainder_raises :
  2 mod 2 = 0 /\ 5 mod 2 = 1 /\
  bin_diffraction cube_1x1x2x5 (PyInt 2)
  = Raise ValueError (set_data4D cube_1x1x2x5 (mk_ndarray [1; 1; 0; 4] [])) /\
  bin_diffraction cube_1x1x5x2 (PyInt 2)
  = Raise ValueError (set_data4D cube_1x1x5x2 (mk_ndarray [1; 1; 4; 0] [])) /\
  bin_real cube_2x5x1x1 (PyInt 2)
  = Raise ValueError (set_data4D cube_2x5x1x1 (mk_ndarray [0; 4; 1; 1] [])).
Proof. repeat split. Qed.

(** After a binning the recorded extents no longer describe the array, and
    [set_scan_shape], which reshapes through them, rejects every request:
    here 4 x 1, whose element count is that of the binned array. *)
Example set_scan_shape_after_binning :
  let binned := state_of (bin_diffraction cube_2x2x2x4 (PyInt 2)) in
  4 * 1 * 1 * 2 = size (data4D binned) /\
  set_scan_shape binned 4 1 = binned.
Proof. split; vm_compute; reflexivity. Qed.

(** C1, on binning: neither method assigns [R_Ny], [R_Nx], [Q_Ny] or
    [Q_Nx], so the recorded extents are those from before the call in
    every case; on a 2 x 2 x 2 x 4 DataCube whose array has the recorded
    shape, binning by 2 leaves an array of shape 2 x 2 x 1 x 2 (resp.
    1 x 1 x 2 x 4) under recorded extents 2, 2, 2, 4. *)
Theorem C1_binning_leaves_extents_stale :
  (forall self factor,
      recorded_shape (state_of (bin_diffraction self factor))
      = recorded_shape self) /\
  (forall self factor,
      recorded_shape (state_of (bin_real self factor)) = recorded_shape self) /\
  shape (data4D cube_2x2x2x4) = recorded_shape cube_2x2x2x4 /\
  (exists self',
      bin_diffraction cube_2x2x2x4 (PyInt 2) = Return self' /\
      shape (data4D self') = [2; 2; 1; 2] /\
      recorded_shape self' = [2; 2; 2; 4]) /\
  (exists self',
      bin_real cube_2x2x2x4 (PyInt 2) = Return self' /\
      shape (data4D self') = [1; 1; 2; 4] /\
      recorded_shape self' = [2; 2; 2; 4]).
Proof.
  split; [|split; [|split; [reflexivity|split]]].
  - intros self factor. unfold bin_diffraction.
    destruct (pynum_le_1 factor); [reflexivity|].
    destruct factor as [f|x]; [|reflexivity].
    destruct (shape (data4D self)) as [|ry [|rx [|qy [|qx [|]]]]];
      try reflexivity.
    destruct ((qy mod f =? 0) && (qx mod f =? 0));
      destruct (reshape _ _); reflexivity.
  - intros self factor. unfold bin_real.
    destruct (pynum_le_1 factor); [reflexivity|].
    destruct factor as [f|x]; [|reflexivity].
    destruct (shape (data4D self)) as [|ry [|rx [|qy [|qx [|]]]]];
      try reflexivity.
    destruct ((ry mod f =? 0) && (rx mod f =? 0));
      destruct (reshape _ _); reflexivity.
  - eexists. repeat split.
  - eexists. repeat split.
Qed.

(* ===================================================================== *)
(** ** Samples by index *)
(* ===================================================================== *)

Lemma nth_chunks {A : Type} (n cnt o : nat) (l : list A) :
  nth o (chunks n cnt l) [] =
  if (o <? cnt)%nat then take n (drop (o * n) l) else [].
Proof.
  revert o l. induction cnt as [|c IH]; intros o l; cbn [chunks].
  - by destruct o.
  - destruct o as [|o]; cbn [nth]; [reflexivity|].
    rewrite IH. change (S o <? S c)%nat with (o <? c)%nat.
    destruct (o <? c)%nat; [|reflexivity].
    rewrite drop_drop. f_equal; f_equal; lia.
Qed.

Lemma length_chunk {A : Type} (n cnt o : nat) (l : list A) :
  length l = (cnt * n)%nat -> (o < cnt)%nat ->
  length (take n (drop (o * n) l)) = n.
Proof. intros Hlen Ho. rewrite length_take, length_drop. nia. Qed.

Lemma map_chunks {A B : Type} (f : list A -> B) (n cnt : nat) (l : list A) :
  map f (chunks n cnt l) =
  map (fun o => f (take n (drop (o * n) l))) (seq 0 cnt).
Proof.
  revert l. induction cnt as [|c IH]; intros l; [reflexivity|].
  cbn [chunks map seq]. f_equal. rewrite IH, <- seq_shift, map_map.
  apply map_ext. intros o. rewrite drop_drop. f_equal; f_equal; f_equal; lia.
Qed.

Lemma nth_concat_uniform (m o p : nat) (blocks : list (list Z)) :
  Forall (fun blk => length blk = m) blocks -> (p < m)%nat ->
  nth (o * m + p) (concat blocks) 0 = nth p (nth o blocks []) 0.
Proof.
  intros Hall Hp. revert o.
  induction Hall as [|blk blocks Hlen _ IH]; intros o.
  - cbn [concat]. rewrite !nth_overflow; [reflexivity| |]; cbn;
      try lia. destruct o; cbn; lia.
  - cbn [concat]. destruct o as [|o]; cbn [nth].
    + rewrite app_nth1 by lia. reflexivity.
    + replace (S o * m + p)%nat with (length blk + (o * m + p))%nat by lia.
      rewrite app_nth2_plus. apply IH.
Qed.

Lemma nth_zip_with_add (p : nat) (l1 l2 : list Z) :
  length l1 = length l2 ->
  nth p (zip_with Z.add l1 l2) 0 = nth p l1 0 + nth p l2 0.
Proof.
  revert p l2. induction l1 as [|x l1 IH]; intros p [|y l2] Hlen;
    try discriminate Hlen.
  - by destruct p.
  - destruct p as [|p]; cbn [zip_with nth]; [reflexivity|].
    apply IH. by injection Hlen.
Qed.

Lemma nth_replicate_0 (p n : nat) : nth p (replicate n 0) 0 = 0.
Proof. revert p. induction n as [|n IH]; intros [|p]; cbn; auto. Qed.

Lemma nth_sum_slabs (n p : nat) (slabs : list (list Z)) :
  Forall (fun slab => length slab = n) slabs ->
  nth p (sum_slabs n slabs) 0 = sumZ (map (fun slab => nth p slab 0) slabs).
Proof.
  intros Hall. unfold sum_slabs.
  induction Hall as [|slab slabs Hlen Hall IH]; cbn [foldr map].
  - apply nth_replicate_0.
  - rewrite nth_zip_with_add.
    + fold (sum_slabs n slabs). unfold sumZ at 1. cbn [foldr]. 
      unfold sum_slabs. rewrite IH. reflexivity.
    + destruct (sum_slabs_spec n slabs Hall) as [Hl _].
      unfold sum_slabs in Hl. lia.
Qed.

Lemma sum_over_ext (n : nat) (g h : nat -> Z) :
  (forall j, (j < n)%nat -> g j = h j) -> sum_over n g = sum_over n h.
Proof.
  intros H. unfold sum_over. f_equal. apply map_ext_in.
  intros j Hj. apply in_seq in Hj. apply H. lia.
Qed.

(** A sample of a block of an array cut at axis [k]. *)
Lemma nth_block (n cnt o q : nat) (l : list Z) :
  (q < n)%nat ->
  nth q (take n (drop (o * n) l)) 0 = nth (o * n + q) l 0.
Proof.
  intros Hq. rewrite nth_firstn.
  destruct (Nat.ltb_spec q n); [|lia]. apply nth_skipn.
Qed.

(** The sample of [a.sum(axis=k)] at position [o] before the axis and [p]
    after it is the sum of the samples of [a] along the axis. *)
Lemma sum_axis_nth (k : nat) (a : ndarray) (o p : nat) :
  wf_ndarray a -> (k < length (shape a))%nat ->
  (o < outer k a)%nat -> (p < inner k a)%nat ->
  nth (o * inner k a + p) (flat (sum_axis k a)) 0 =
  sum_over (dim a k)
    (fun j => nth ((o * dim a k + j) * inner k a + p) (flat a) 0).
Proof.
  intros Hwf Hk Ho Hp.
  destruct (wf_axis k a Hwf Hk) as (_ & _ & _ & Hlen).
  unfold sum_axis, dim. cbn [flat].
  set (d := Z.to_nat (extent k a)) in *.
  set (n := inner k a) in *.
  set (g := fun blk => sum_slabs n (chunks n d blk)).
  assert (Hblocks : Forall (fun blk => length blk = (d * n)%nat)
                      (chunks (d * n) (outer k a) (flat a)))
    by (by apply chunks_each_length).
  rewrite nth_concat_uniform; [|
    apply Forall_map; eapply Forall_impl; [exact Hblocks|];
    intros blk Hblk; by apply sum_slabs_block | exact Hp].
  rewrite (nth_indep _ [] (g [])) by (rewrite length_map, chunks_length; lia).
  rewrite map_nth, nth_chunks.
  destruct (Nat.ltb_spec o (outer k a)); [|lia].
  unfold g. rewrite nth_sum_slabs
    by (apply chunks_each_length; by eapply length_chunk).
  rewrite map_chunks. unfold sum_over. f_equal. apply map_ext_in.
  intros j Hj. apply in_seq in Hj.
  rewrite (nth_block n d j p) by exact Hp.
  rewrite (nth_block (d * n) (outer k a) o) by nia.
  f_equal. lia.
Qed.

(** The extents of a shape as numbers of indices. *)
Lemma to_nat_prod (dims : list Z) :
  Forall (fun d => 0 <= d) dims ->
  Z.to_nat (prod dims) = foldr Nat.mul 1%nat (map Z.to_nat dims).
Proof.
  unfold prod. induction 1 as [|d dims Hd Hall IH]; [reflexivity|].
  cbn [foldr map]. rewrite Z2Nat.inj_mul; [by rewrite IH|lia|].
  by apply prod_nonneg.
Qed.

Lemma offset_lt (a b i j : nat) :
  (i < a)%nat -> (j < b)%nat -> (i * b + j < a * b)%nat.
Proof. nia. Qed.

Lemma wf_mk (sh fl : list Z) :
  Forall (fun d => 0 <= d) sh -> Z.of_nat (length fl) = prod sh ->
  wf_ndarray (mk_ndarray sh fl).
Proof. intros. by split. Qed.

(** The sums over axes 5 and 3 of a six-dimensional array, sample by
    sample. *)
Lemma sum_axes_3_5_nth (r0 r1 q2 f q4 : Z) (fl : list Z) (i0 i1 i2 i3 : nat) :
  0 <= r0 -> 0 <= r1 -> 0 <= q2 -> 0 <= f -> 0 <= q4 ->
  Z.of_nat (length fl) = prod [r0; r1; q2; f; q4; f] ->
  (i0 < Z.to_nat r0)%nat -> (i1 < Z.to_nat r1)%nat ->
  (i2 < Z.to_nat q2)%nat -> (i3 < Z.to_nat q4)%nat ->
  get4 (sum_axis 3 (sum_axis 5 (mk_ndarray [r0; r1; q2; f; q4; f] fl)))
    i0 i1 i2 i3 =
  sum_over (Z.to_nat f) (fun u =>
    sum_over (Z.to_nat f) (fun v =>
      nth (((((i0 * Z.to_nat r1 + i1) * Z.to_nat q2 + i2) * Z.to_nat f + u)
              * Z.to_nat q4 + i3) * Z.to_nat f + v) fl 0)).
Proof.
  intros H0 H1 H2 Hf H4 Hlen I0 I1 I2 I3.
  set (a6 := mk_ndarray [r0; r1; q2; f; q4; f] fl).
  assert (Hwf6 : wf_ndarray a6)
    by (apply wf_mk; [repeat constructor; lia|exact Hlen]).
  destruct (sum_axis_total 5 a6 Hwf6) as [Hwf5 _]; [cbn; lia|].
  set (a5 := sum_axis 5 a6) in *.
  set (R1 := Z.to_nat r1) in *. set (Q2 := Z.to_nat q2) in *.
  set (F := Z.to_nat f) in *. set (Q4 := Z.to_nat q4) in *.
  set (R0 := Z.to_nat r0) in *.
  assert (Hin5 : inner 5 a6 = 1%nat) by reflexivity.
  assert (Hd5 : dim a6 5 = F) by reflexivity.
  assert (Hout5 : outer 5 a6 = (R0 * (R1 * (Q2 * (F * (Q4 * 1)))))%nat).
  { unfold outer. cbn [shape a6 take]. rewrite to_nat_prod; [reflexivity|].
    repeat constructor; lia. }
  assert (Hin3 : inner 3 a5 = (Q4 * 1)%nat).
  { unfold inner. cbn [shape a5 a6 sum_axis take drop app].
    rewrite to_nat_prod; [reflexivity|]. repeat constructor; lia. }
  assert (Hd3 : dim a5 3 = F) by reflexivity.
  assert (Hout3 : outer 3 a5 = (R0 * (R1 * (Q2 * 1)))%nat).
  { unfold outer. cbn [shape a5 a6 sum_axis take drop app].
    rewrite to_nat_prod; [reflexivity|]. repeat constructor; lia. }
  set (o := ((i0 * R1 + i1) * Q2 + i2)%nat).
  assert (Ho : (o < R0 * (R1 * (Q2 * 1)))%nat).
  { unfold o. pose proof (offset_lt R0 R1 i0 i1 I0 I1).
    pose proof (offset_lt (R0 * R1) Q2 _ i2 H I2). lia. }
  unfold get4. 
  replace (dim (sum_axis 3 a5) 1) with R1 by reflexivity.
  replace (dim (sum_axis 3 a5) 2) with Q2 by reflexivity.
  replace (dim (sum_axis 3 a5) 3) with Q4 by reflexivity.
  fold o.
  pose proof (sum_axis_nth 3 a5 o i3 Hwf5) as E3.
  rewrite Hin3, Hd3, Hout3 in E3.
  replace (o * Q4 + i3)%nat with (o * (Q4 * 1) + i3)%nat by lia.
  rewrite E3; [|cbn; lia|exact Ho|lia].
  apply sum_over_ext. intros u Hu.
  set (o5 := ((o * F + u) * (Q4 * 1) + i3)%nat).
  pose proof (sum_axis_nth 5 a6 o5 0 Hwf6) as E5.
  rewrite Hin5, Hd5, Hout5 in E5. change (sum_axis 5 a6) with a5 in E5.
  replace o5 with (o5 * 1 + 0)%nat at 1 by lia.
  rewrite E5; [|cbn; lia| |lia].
  - apply sum_over_ext. intros v Hv. cbn [flat a6]. f_equal. unfold o5. lia.
  - unfold o5.
    pose proof (offset_lt _ F o u Ho Hu).
    pose proof (offset_lt _ Q4 _ i3 H I3). lia.
Qed.

(** The sums over axes 3 and 1 of a six-dimensional array, sample by
    sample. *)
Lemma sum_axes_1_3_nth (r0 f r1 q2 q3 : Z) (fl : list Z) (i0 i1 i2 i3 : nat) :
  0 <= r0 -> 0 <= f -> 0 <= r1 -> 0 <= q2 -> 0 <= q3 ->
  Z.of_nat (length fl) = prod [r0; f; r1; f; q2; q3] ->
  (i0 < Z.to_nat r0)%nat -> (i1 < Z.to_nat r1)%nat ->
  (i2 < Z.to_nat q2)%nat -> (i3 < Z.to_nat q3)%nat ->
  get4 (sum_axis 1 (sum_axis 3 (mk_ndarray [r0; f; r1; f; q2; q3] fl)))
    i0 i1 i2 i3 =
  sum_over (Z.to_nat f) (fun u =>
    sum_over (Z.to_nat f) (fun v =>
      nth (((((i0 * Z.to_nat f + u) * Z.to_nat r1 + i1) * Z.to_nat f + v)
              * Z.to_nat q2 + i2) * Z.to_nat q3 + i3) fl 0)).
Proof.
  intros H0 Hf H1 H2 H3 Hlen I0 I1 I2 I3.
  set (a6 := mk_ndarray [r0; f; r1; f; q2; q3] fl).
  assert (Hwf6 : wf_ndarray a6)
    by (apply wf_mk; [repeat constructor; lia|exact Hlen]).
  destruct (sum_axis_total 3 a6 Hwf6) as [Hwf5 _]; [cbn; lia|].
  set (a5 := sum_axis 3 a6) in *.
  set (R0 := Z.to_nat r0) in *. set (R1 := Z.to_nat r1) in *.
  set (F := Z.to_nat f) in *.
  set (Q2 := Z.to_nat q2) in *. set (Q3 := Z.to_nat q3) in *.
  assert (Hin3 : inner 3 a6 = (Q2 * (Q3 * 1))%nat).
  { unfold inner. cbn [shape a6 drop].
    rewrite to_nat_prod; [reflexivity|]. repeat constructor; lia. }
  assert (Hd3 : dim a6 3 = F) by reflexivity.
  assert (Hout3 : outer 3 a6 = (R0 * (F * (R1 * 1)))%nat).
  { unfold outer. cbn [shape a6 take]. rewrite to_nat_prod; [reflexivity|].
    repeat constructor; lia. }
  assert (Hin1 : inner 1 a5 = (R1 * (Q2 * (Q3 * 1)))%nat).
  { unfold inner. cbn [shape a5 a6 sum_axis take drop app].
    rewrite to_nat_prod; [reflexivity|]. repeat constructor; lia. }
  assert (Hd1 : dim a5 1 = F) by reflexivity.
  assert (Hout1 : outer 1 a5 = (R0 * 1)%nat).
  { unfold outer. cbn [shape a5 a6 sum_axis take drop app].
    rewrite to_nat_prod; [reflexivity|]. repeat constructor; lia. }
  set (p := ((i1 * Q2 + i2) * Q3 + i3)%nat).
  assert (Hp : (p < R1 * (Q2 * (Q3 * 1)))%nat).
  { unfold p. pose proof (offset_lt R1 Q2 i1 i2 I1 I2).
    pose proof (offset_lt (R1 * Q2) Q3 _ i3 H I3). lia. }
  unfold get4.
  replace (dim (sum_axis 1 a5) 1) with R1 by reflexivity.
  replace (dim (sum_axis 1 a5) 2) with Q2 by reflexivity.
  replace (dim (sum_axis 1 a5) 3) with Q3 by reflexivity.
  pose proof (sum_axis_nth 1 a5 i0 p Hwf5) as E1.
  rewrite Hin1, Hd1, Hout1 in E1.
  replace (((i0 * R1 + i1) * Q2 + i2) * Q3 + i3)%nat
    with (i0 * (R1 * (Q2 * (Q3 * 1))) + p)%nat by (unfold p; lia).
  rewrite E1; [|cbn; lia|lia|exact Hp].
  apply sum_over_ext. intros u Hu.
  set (o3 := ((i0 * F + u) * R1 + i1)%nat).
  set (p3 := (i2 * Q3 + i3)%nat).
  pose proof (sum_axis_nth 3 a6 o3 p3 Hwf6) as E3.
  rewrite Hin3, Hd3, Hout3 in E3. change (sum_axis 3 a6) with a5 in E3.
  replace ((i0 * F + u) * (R1 * (Q2 * (Q3 * 1))) + p)%nat
    with (o3 * (Q2 * (Q3 * 1)) + p3)%nat by (unfold o3, p3, p; lia).
  rewrite E3; [|cbn; lia| |].
  - apply sum_over_ext. intros v Hv. cbn [flat a6]. f_equal.
    unfold o3, p3. lia.
  - unfold o3. pose proof (offset_lt R0 F i0 u I0 Hu).
    pose proof (offset_lt (R0 * F) R1 _ i1 H I1). lia.
  - unfold p3. pose proof (offset_lt Q2 Q3 i2 i3 I2 I3). lia.
Qed.

(* ===================================================================== *)
(** ** Binning, sample by sample *)
(* ===================================================================== *)

Lemma dim_shape_4 (a : ndarray) (d0 d1 d2 d3 : Z) :
  shape a = [d0; d1; d2; d3] ->
  dim a 0 = Z.to_nat d0 /\ dim a 1 = Z.to_nat d1 /\
  dim a 2 = Z.to_nat d2 /\ dim a 3 = Z.to_nat d3.
Proof. intros H. unfold dim, extent. rewrite H. repeat split. Qed.

Lemma to_nat_div_mul (n f : Z) :
  0 <= n -> 1 < f -> n mod f = 0 ->
  Z.to_nat n = (Z.to_nat (n / f) * Z.to_nat f)%nat.
Proof.
  intros Hn Hf Hmod.
  destruct (int_truediv_exact n f Hn Hf Hmod) as (Hq & Eq & Mq).
  rewrite Eq in Hq, Mq. rewrite <- Z2Nat.inj_mul by lia. by rewrite Mq.
Qed.

(** What [bin_diffraction] computes when the factor divides both
    diffraction extents. *)
Lemma bin_diffraction_even_eq (self : DataCube) (f ry rx qy qx : Z) :
  wf_ndarray (data4D self) ->
  shape (data4D self) = [ry; rx; qy; qx] ->
  1 < f -> qy mod f = 0 -> qx mod f = 0 ->
  bin_diffraction self (PyInt f) =
  Return (set_data4D self
            (sum_axis 3 (sum_axis 5
               (mk_ndarray [ry; rx; qy / f; f; qx / f; f]
                  (flat (data4D self)))))).
Proof.
  intros Hwf Hsh Hf Hy Hx.
  destruct (wf_shape_4 _ _ _ _ _ Hwf Hsh) as (H0 & H1 & H2 & H3 & Hlen).
  destruct (int_truediv_exact qy f H2 Hf Hy) as (Hqy & Eqy & Mqy).
  destruct (int_truediv_exact qx f H3 Hf Hx) as (Hqx & Eqx & Mqx).
  unfold bin_diffraction. cbn [pynum_le_1].
  destruct (Z.leb_spec f 1) as [|_]; [lia|].
  rewrite Hsh, Hy, Hx. cbn [Z.eqb andb].
  rewrite reshape_nonneg by (repeat constructor; lia).
  replace (prod [ry; rx; int_truediv qy f; f; int_truediv qx f; f])
    with (size (data4D self))
    by (unfold size; rewrite Hsh, prod_4, prod_6; nia).
  rewrite Z.eqb_refl, Eqy, Eqx. reflexivity.
Qed.

Lemma bin_real_even_eq (self : DataCube) (f ry rx qy qx : Z) :
  wf_ndarray (data4D self) ->
  shape (data4D self) = [ry; rx; qy; qx] ->
  1 < f -> ry mod f = 0 -> rx mod f = 0 ->
  bin_real self (PyInt f) =
  Return (set_data4D self
            (sum_axis 1 (sum_axis 3
               (mk_ndarray [ry / f; f; rx / f; f; qy; qx]
                  (flat (data4D self)))))).
Proof.
  intros Hwf Hsh Hf Hy Hx.
  destruct (wf_shape_4 _ _ _ _ _ Hwf Hsh) as (H0 & H1 & H2 & H3 & Hlen).
  destruct (int_truediv_exact ry f H0 Hf Hy) as (Hry & Ery & Mry).
  destruct (int_truediv_exact rx f H1 Hf Hx) as (Hrx & Erx & Mrx).
  unfold bin_real. cbn [pynum_le_1].
  destruct (Z.leb_spec f 1) as [|_]; [lia|].
  rewrite Hsh, Hy, Hx. cbn [Z.eqb andb].
  rewrite reshape_nonneg by (repeat constructor; lia).
  replace (prod [int_truediv ry f; f; int_truediv rx f; f; qy; qx])
    with (size (data4D self))
    by (unfold size; rewrite Hsh, prod_4, prod_6; nia).
  rewrite Z.eqb_refl, Ery, Erx. reflexivity.
Qed.

Lemma bin_diffraction_samples_spec (self : DataCube) (f ry rx qy qx : Z) :
  wf_ndarray (data4D self) ->
  shape (data4D self) = [ry; rx; qy; qx] ->
  1 < f -> qy mod f = 0 -> qx mod f = 0 ->
  exists self',
    bin_diffraction self (PyInt f) = Return self' /\
    wf_ndarray (data4D self') /\
    shape (data4D self') = [ry; rx; qy / f; qx / f] /\
    forall i0 i1 i2 i3 : nat,
      (i0 < Z.to_nat ry)%nat -> (i1 < Z.to_nat rx)%nat ->
      (i2 < Z.to_nat (qy / f))%nat -> (i3 < Z.to_nat (qx / f))%nat ->
      get4 (data4D self') i0 i1 i2 i3 =
      sum_over (Z.to_nat f) (fun u =>
        sum_over (Z.to_nat f) (fun v =>
          get4 (data4D self) i0 i1
            (i2 * Z.to_nat f + u) (i3 * Z.to_nat f + v))).
Proof.
  intros Hwf Hsh Hf Hy Hx.
  destruct (wf_shape_4 _ _ _ _ _ Hwf Hsh) as (H0 & H1 & H2 & H3 & Hlen).
  destruct (int_truediv_exact qy f H2 Hf Hy) as (Hqy & Eqy & Mqy).
  destruct (int_truediv_exact qx f H3 Hf Hx) as (Hqx & Eqx & Mqx).
  rewrite Eqy in Hqy, Mqy. rewrite Eqx in Hqx, Mqx.
  eexists. split; [by eapply bin_diffraction_even_eq|].
  cbn [data4D set_data4D].
  assert (Hlen6 : Z.of_nat (length (flat (data4D self)))
                  = prod [ry; rx; qy / f; f; qx / f; f])
    by (rewrite Hlen, prod_6; nia).
  assert (Hwf6 : wf_ndarray (mk_ndarray [ry; rx; qy / f; f; qx / f; f]
                               (flat (data4D self))))
    by (apply wf_mk; [repeat constructor; lia|exact Hlen6]).
  split; [|split; [reflexivity|]].
  - destruct (sum_axis_total 5 _ Hwf6) as [Hwf5 _]; [cbn; lia|].
    destruct (sum_axis_total 3 _ Hwf5) as [Hwf4 _]; [cbn; lia|]. exact Hwf4.
  - intros i0 i1 i2 i3 I0 I1 I2 I3.
    rewrite sum_axes_3_5_nth by (assumption || lia).
    destruct (dim_shape_4 _ _ _ _ _ Hsh) as (_ & D1 & D2 & D3).
    apply sum_over_ext. intros u Hu. apply sum_over_ext. intros v Hv.
    unfold get4. rewrite D1, D2, D3.
    rewrite (to_nat_div_mul qy f) by assumption.
    rewrite (to_nat_div_mul qx f) by assumption.
    f_equal. lia.
Qed.


Lemma bin_real_samples_spec (self : DataCube) (f ry rx qy qx : Z) :
  wf_ndarray (data4D self) ->
  shape (data4D self) = [ry; rx; qy; qx] ->
  1 < f -> ry mod f = 0 -> rx mod f = 0 ->
  exists self',
    bin_real self (PyInt f) = Return self' /\
    wf_ndarray (data4D self') /\
    shape (data4D self') = [ry / f; rx / f; qy; qx] /\
    forall i0 i1 i2 i3 : nat,
      (i0 < Z.to_nat (ry / f))%nat -> (i1 < Z.to_nat (rx / f))%nat ->
      (i2 < Z.to_nat qy)%nat -> (i3 < Z.to_nat qx)%nat ->
      get4 (data4D self') i0 i1 i2 i3 =
      sum_over (Z.to_nat f) (fun u =>
        sum_over (Z.to_nat f) (fun v =>
          get4 (data4D self)
            (i0 * Z.to_nat f + u) (i1 * Z.to_nat f + v) i2 i3)).
Proof.
  intros Hwf Hsh Hf Hy Hx.
  destruct (wf_shape_4 _ _ _ _ _ Hwf Hsh) as (H0 & H1 & H2 & H3 & Hlen).
  destruct (int_truediv_exact ry f H0 Hf Hy) as (Hry & Ery & Mry).
  destruct (int_truediv_exact rx f H1 Hf Hx) as (Hrx & Erx & Mrx).
  rewrite Ery in Hry, Mry. rewrite Erx in Hrx, Mrx.
  eexists. split; [by eapply bin_real_even_eq|].
  cbn [data4D set_data4D].
  assert (Hlen6 : Z.of_nat (length (flat (data4D self)))
                  = prod [ry / f; f; rx / f; f; qy; qx])
    by (rewrite Hlen, prod_6; nia).
  assert (Hwf6 : wf_ndarray (mk_ndarray [ry / f; f; rx / f; f; qy; qx]
                               (flat (data4D self))))
    by (apply wf_mk; [repeat constructor; lia|exact Hlen6]).
  split; [|split; [reflexivity|]].
  - destruct (sum_axis_total 3 _ Hwf6) as [Hwf5 _]; [cbn; lia|].
    destruct (sum_axis_total 1 _ Hwf5) as [Hwf4 _]; [cbn; lia|]. exact Hwf4.
  - intros i0 i1 i2 i3 I0 I1 I2 I3.
    rewrite sum_axes_1_3_nth by (assumption || lia).
    destruct (dim_shape_4 _ _ _ _ _ Hsh) as (_ & D1 & D2 & D3).
    apply sum_over_ext. intros u Hu. apply sum_over_ext. intros v Hv.
    unfold get4. rewrite D1, D2, D3.
    rewrite (to_nat_div_mul rx f) by assumption.
    f_equal. lia.
Qed.


(** *** Slices that drop the end of an axis *)

Lemma length_concat_uniform {A : Type} (m : nat) (blocks : list (list A)) :
  Forall (fun blk => length blk = m) blocks ->
  length (concat blocks) = (length blocks * m)%nat.
Proof.
  induction 1 as [|blk blocks Hlen _ IH]; [reflexivity|].
  cbn [concat length]. rewrite length_app. lia.
Qed.

Lemma slice_len_bounds (n stop : Z) : 0 <= n -> 0 <= slice_len n stop <= n.
Proof. intros Hn. unfold slice_len. destruct (Z.ltb_spec stop 0); lia. Qed.

(** [a[..., :stop, ...]] is a numpy array again, and its samples are those
    of [a] at the same indices. *)
Lemma take_axis_spec (k : nat) (stop : Z) (a : ndarray) :
  wf_ndarray a -> (k < length (shape a))%nat ->
  wf_ndarray (take_axis k stop a) /\
  forall o t p : nat,
    (o < outer k a)%nat ->
    (t < Z.to_nat (slice_len (extent k a) stop))%nat ->
    (p < inner k a)%nat ->
    nth ((o * Z.to_nat (slice_len (extent k a) stop) + t) * inner k a + p)
      (flat (take_axis k stop a)) 0
    = nth ((o * dim a k + t) * inner k a + p) (flat a) 0.
Proof.
  intros Hwf Hk.
  destruct (wf_axis k a Hwf Hk) as (Hpre & Hd & Hpost & Hlen).
  pose proof (slice_len_bounds (extent k a) stop Hd) as Hm.
  unfold take_axis, dim. cbn [flat shape].
  set (m := slice_len (extent k a) stop) in *.
  set (d := Z.to_nat (extent k a)) in *.
  set (n := inner k a) in *.
  assert (HM : (Z.to_nat m <= d)%nat) by (unfold d; lia).
  assert (Hblocks : Forall (fun blk => length blk = (d * n)%nat)
                      (chunks (d * n) (outer k a) (flat a)))
    by (by apply chunks_each_length).
  assert (Htaken : Forall (fun blk => length blk = (Z.to_nat m * n)%nat)
                     (map (take (Z.to_nat m * n))
                        (chunks (d * n) (outer k a) (flat a)))).
  { apply Forall_map. eapply Forall_impl; [exact Hblocks|].
    intros blk Hblk.
    change (length (take (Z.to_nat m * n) blk) = (Z.to_nat m * n)%nat).
    rewrite length_take, Hblk. apply Nat.min_l.
    by apply Nat.mul_le_mono_r. }
  split.
  - split; cbn [shape flat].
    + destruct Hwf as [Hnn _]. apply Forall_app. split; [by apply Forall_take|].
      constructor; [lia|by apply Forall_drop].
    + rewrite (length_concat_uniform _ _ Htaken), length_map, chunks_length.
      unfold size. cbn [shape]. rewrite prod_app.
      change (prod (m :: drop (S k) (shape a)))
        with (m * prod (drop (S k) (shape a))).
      unfold outer, n, inner. lia.
  - intros o t p Ho Ht Hp.
    replace ((o * Z.to_nat m + t) * n + p)%nat
      with (o * (Z.to_nat m * n) + (t * n + p))%nat by lia.
    pose proof (offset_lt _ n t p Ht Hp) as Hq.
    rewrite (nth_concat_uniform _ _ _ _ Htaken) by exact Hq.
    rewrite (nth_indep _ [] (take (Z.to_nat m * n) []))
      by (rewrite length_map, chunks_length; lia).
    rewrite map_nth, nth_chunks.
    destruct (Nat.ltb_spec o (outer k a)); [|lia].
    rewrite nth_firstn. destruct (Nat.ltb_spec (t * n + p) (Z.to_nat m * n));
      [|lia].
    rewrite (nth_block (d * n) (outer k a) o) by nia.
    f_equal. lia.
Qed.






(** *** The slice [:-0] *)

Lemma truncated_qq_shape (a : ndarray) (ry rx qy qx p2 p3 : Z) :
  wf_ndarray a -> shape a = [ry; rx; qy; qx] ->
  0 <= p2 <= qy -> 0 <= p3 <= qx ->
  let a' := take_axis 3 (- p3) (take_axis 2 (- p2) a) in
  wf_ndarray a' /\
  shape a' = [ry; rx; if p2 =? 0 then 0 else qy - p2;
              if p3 =? 0 then 0 else qx - p3].
Proof.
  intros Hwf Hsh Hp2 Hp3.
  destruct (take_axis_spec 2 (- p2) a Hwf) as [Hwf2 _]; [rewrite Hsh; cbn; lia|].
  assert (Hsh2 : shape (take_axis 2 (- p2) a)
                 = [ry; rx; if p2 =? 0 then 0 else qy - p2; qx]).
  { unfold take_axis, extent. cbn [shape]. rewrite Hsh. cbn [take drop nth app].
    by rewrite slice_len_neg by lia. }
  destruct (take_axis_spec 3 (- p3) _ Hwf2) as [Hwf3 _];
    [rewrite Hsh2; cbn; lia|].
  cbv zeta. split; [exact Hwf3|].
  unfold take_axis at 1. unfold extent. cbn [shape]. rewrite Hsh2.
  cbn [take drop nth app]. by rewrite slice_len_neg by lia.
Qed.

Lemma truncated_rr_shape (a : ndarray) (ry rx qy qx p0 p1 : Z) :
  wf_ndarray a -> shape a = [ry; rx; qy; qx] ->
  0 <= p0 <= ry -> 0 <= p1 <= rx ->
  let a' := take_axis 1 (- p1) (take_axis 0 (- p0) a) in
  wf_ndarray a' /\
  shape a' = [if p0 =? 0 then 0 else ry - p0;
              if p1 =? 0 then 0 else rx - p1; qy; qx].
Proof.
  intros Hwf Hsh Hp0 Hp1.
  destruct (take_axis_spec 0 (- p0) a Hwf) as [Hwf0 _]; [rewrite Hsh; cbn; lia|].
  assert (Hsh0 : shape (take_axis 0 (- p0) a)
                 = [if p0 =? 0 then 0 else ry - p0; rx; qy; qx]).
  { unfold take_axis, extent. cbn [shape]. rewrite Hsh. cbn [take drop nth app].
    by rewrite slice_len_neg by lia. }
  destruct (take_axis_spec 1 (- p1) _ Hwf0) as [Hwf1 _];
    [rewrite Hsh0; cbn; lia|].
  cbv zeta. split; [exact Hwf1|].
  unfold take_axis at 1. unfold extent. cbn [shape]. rewrite Hsh0.
  cbn [take drop nth app]. by rewrite slice_len_neg by lia.
Qed.

Lemma wf_size_0_flat (a : ndarray) : wf_ndarray a -> size a = 0 -> flat a = [].
Proof.
  intros [_ Hlen] Hs. rewrite Hs in Hlen. apply nil_length_inv. lia.
Qed.

(** X6: when the factor divides exactly one of the two diffraction extents and
    the binned array would not be empty, [bin_diffraction] stores an array
    without samples, a zero extent on the axis the factor divides, and
    raises [ValueError]. *)
Theorem bin_diffraction_one_sided (self : DataCube) (f ry rx qy qx : Z) :
  wf_ndarray (data4D self) ->
  shape (data4D self) = [ry; rx; qy; qx] ->
  1 < f ->
  (qy mod f = 0 /\ qx mod f <> 0) \/ (qy mod f <> 0 /\ qx mod f = 0) ->
  0 < ry * rx * (qy / f) * (qx / f) ->
  exists emptied,
    bin_diffraction self (PyInt f) = Raise ValueError (set_data4D self emptied) /\
    flat emptied = [] /\
    shape emptied = [ry; rx;
                     if qy mod f =? 0 then 0 else qy - qy mod f;
                     if qx mod f =? 0 then 0 else qx - qx mod f].
Proof.
  intros Hwf Hsh Hf Hone Hpos.
  destruct (wf_shape_4 _ _ _ _ _ Hwf Hsh) as (H0 & H1 & H2 & H3 & Hlen).
  destruct (int_truediv_floor qy f H2 Hf) as (Hqy & Eqy & Mqy & Byy).
  destruct (int_truediv_floor qx f H3 Hf) as (Hqx & Eqx & Mqx & Bxx).
  destruct (truncated_qq_shape (data4D self) ry rx qy qx (qy mod f) (qx mod f)
              Hwf Hsh Byy Bxx) as (Hwf' & Hsh').
  set (a' := take_axis 3 (- (qx mod f))
               (take_axis 2 (- (qy mod f)) (data4D self))) in *.
  assert (Hsize : size a' = 0).
  { unfold size. rewrite Hsh', prod_4.
    destruct Hone as [[-> _]|[_ ->]]; cbn [Z.eqb]; lia. }
  exists a'. split; [|split; [by apply wf_size_0_flat|exact Hsh']].
  unfold bin_diffraction. cbn [pynum_le_1].
  destruct (Z.leb_spec f 1) as [|_]; [lia|].
  rewrite Hsh.
  assert (Hcond : (qy mod f =? 0) && (qx mod f =? 0) = false).
  { destruct Hone as [[_ Hx]|[Hy _]].
    - apply andb_false_intro2. by apply Z.eqb_neq.
    - apply andb_false_intro1. by apply Z.eqb_neq. }
  rewrite Hcond. cbn [data4D set_data4D]. fold a'.
  rewrite reshape_nonneg by (repeat constructor; lia).
  rewrite Hsize, prod_6, Eqy, Eqx.
  destruct (Z.eqb_spec 0 (ry * rx * (qy / f) * f * (qx / f) * f)) as [E|_];
    [nia|reflexivity].
Qed.

(** X7: when the factor divides exactly one of the two scan extents and the
    binned array would not be empty, [bin_real] stores an array without
    samples, a zero extent on the axis the factor divides, and raises
    [ValueError]. *)
Theorem bin_real_one_sided (self : DataCube) (f ry rx qy qx : Z) :
  wf_ndarray (data4D self) ->
  shape (data4D self) = [ry; rx; qy; qx] ->
  1 < f ->
  (ry mod f = 0 /\ rx mod f <> 0) \/ (ry mod f <> 0 /\ rx mod f = 0) ->
  0 < (ry / f) * (rx / f) * qy * qx ->
  exists emptied,
    bin_real self (PyInt f) = Raise ValueError (set_data4D self emptied) /\
    flat emptied = [] /\
    shape emptied = [if ry mod f =? 0 then 0 else ry - ry mod f;
                     if rx mod f =? 0 then 0 else rx - rx mod f;
                     qy; qx].
Proof.
  intros Hwf Hsh Hf Hone Hpos.
  destruct (wf_shape_4 _ _ _ _ _ Hwf Hsh) as (H0 & H1 & H2 & H3 & Hlen).
  destruct (int_truediv_floor ry f H0 Hf) as (Hry & Ery & Mry & Byy).
  destruct (int_truediv_floor rx f H1 Hf) as (Hrx & Erx & Mrx & Bxx).
  destruct (truncated_rr_shape (data4D self) ry rx qy qx (ry mod f) (rx mod f)
              Hwf Hsh Byy Bxx) as (Hwf' & Hsh').
  set (a' := take_axis 1 (- (rx mod f))
               (take_axis 0 (- (ry mod f)) (data4D self))) in *.
  assert (Hsize : size a' = 0).
  { unfold size. rewrite Hsh', prod_4.
    destruct Hone as [[-> _]|[_ ->]]; cbn [Z.eqb]; lia. }
  exists a'. split; [|split; [by apply wf_size_0_flat|exact Hsh']].
  unfold bin_real. cbn [pynum_le_1].
  destruct (Z.leb_spec f 1) as [|_]; [lia|].
  rewrite Hsh.
  assert (Hcond : (ry mod f =? 0) && (rx mod f =? 0) = false).
  { destruct Hone as [[_ Hx]|[Hy _]].
    - apply andb_false_intro2. by apply Z.eqb_neq.
    - apply andb_false_intro1. by apply Z.eqb_neq. }
  rewrite Hcond. cbn [data4D set_data4D]. fold a'.
  rewrite reshape_nonneg by (repeat constructor; lia).
  rewrite Hsize, prod_6, Ery, Erx.
  destruct (Z.eqb_spec 0 (ry / f * f * (rx / f) * f * qy * qx)) as [E|_];
    [nia|reflexivity].
Qed.

(* ===================================================================== *)
(** ** The two binnings together *)
(* ===================================================================== *)









(** A binning that returns has replaced the array and nothing else. *)
Lemma bin_diffraction_Return self factor self' :
  bin_diffraction self factor = Return self' ->
  self' = set_data4D self (data4D self').
Proof.
  unfold bin_diffraction.
  destruct (pynum_le_1 factor).
  { intros [= <-]. by destruct self. }
  destruct factor as [f|x]; [|discriminate].
  destruct (shape (data4D self)) as [|ry [|rx [|qy [|qx [|]]]]];
    try discriminate.
  destruct ((qy mod f =? 0) && (qx mod f =? 0));
    destruct (reshape _ _); try discriminate; by intros [= <-].
Qed.

Lemma bin_real_Return self factor self' :
  bin_real self factor = Return self' ->
  self' = set_data4D self (data4D self').
Proof.
  unfold bin_real.
  destruct (pynum_le_1 factor).
  { intros [= <-]. by destruct self. }
  destruct factor as [f|x]; [|discriminate].
  destruct (shape (data4D self)) as [|ry [|rx [|qy [|qx [|]]]]];
    try discriminate.
  destruct ((ry mod f =? 0) && (rx mod f =? 0));
    destruct (reshape _ _); try discriminate; by intros [= <-].
Qed.





Lemma at_most_1_le n : at_most_1 n -> pynum_le_1 n = true.
Proof.
  destruct n as [z|[q| | |]]; cbn; try done.
  - intros H. by apply Z.leb_le.
  - intros H. by apply Qle_bool_iff.
Qed.

(** X11: a factor of at most one, an [int] or not, zero and the negative ones
    included, leaves the DataCube as it is and raises nothing, in either
    binning and in [cropAndBin]. *)
Theorem binning_factor_at_most_1 (self : DataCube) (bin_r bin_q : pynum) :
  at_most_1 bin_r -> at_most_1 bin_q ->
  bin_diffraction self bin_q = Return self /\
  bin_real self bin_r = Return self /\
  cropAndBin self bin_r bin_q = Return self.
Proof.
  intros Hr Hq. unfold cropAndBin, bin_diffraction, bin_real.
  by rewrite (at_most_1_le _ Hr), (at_most_1_le _ Hq).
Qed.

(* ===================================================================== *)
(** ** Reshaping after the element count changed *)
(* ===================================================================== *)

(** With non-negative recorded extents whose element count is not that of
    the array, no request is granted. *)
Lemma set_scan_shape_stuck (self : DataCube) :
  0 <= R_N self -> 0 <= Q_Ny self -> 0 <= Q_Nx self ->
  size (data4D self) <> R_N self * Q_Ny self * Q_Nx self ->
  forall ny nx, set_scan_shape self ny nx = self.
Proof.
  intros HN Hy Hx Hne ny nx. unfold set_scan_shape.
  rewrite reshape_nonneg by (repeat constructor; assumption).
  replace (prod [R_N self; Q_Ny self; Q_Nx self])
    with (R_N self * Q_Ny self * Q_Nx self) by (unfold prod; cbn [foldr]; lia).
  destruct (Z.eqb_spec (size (data4D self))
              (R_N self * Q_Ny self * Q_Nx self)); [contradiction|reflexivity].
Qed.

(** X12: after a binning by a factor that divides the extents, of a DataCube
    that has samples and whose array had the recorded shape, every
    [set_scan_shape] leaves the DataCube as it is: the reshape goes through
    the extents recorded before the binning. *)
Theorem set_scan_shape_stuck_after_binning (axes : axis_pair)
    (self self' : DataCube) (f A B : Z) :
  wf_ndarray (data4D self) ->
  shape (data4D self) = recorded_shape self ->
  R_N self = R_Ny self * R_Nx self ->
  0 < size (data4D self) ->
  pair_extents axes (shape (data4D self)) = Some (A, B) ->
  1 < f -> A mod f = 0 -> B mod f = 0 ->
  bin axes self (PyInt f) = Return self' ->
  forall ny nx, set_scan_shape self' ny nx = self'.
Proof.
  intros Hwf Hrec HN Hsize Hext Hf HA HB Hbin.
  unfold recorded_shape in Hrec.
  destruct (wf_shape_4 _ _ _ _ _ Hwf Hrec) as (H0 & H1 & H2 & H3 & _).
  assert (Hsz : size (data4D self)
                = R_Ny self * R_Nx self * Q_Ny self * Q_Nx self)
    by (unfold size; rewrite Hrec; apply prod_4).
  rewrite Hrec in Hext.
  assert (Hfields : R_N self' = R_N self /\ Q_Ny self' = Q_Ny self /\
                    Q_Nx self' = Q_Nx self).
  { destruct axes; cbn [bin] in Hbin.
    - rewrite (bin_diffraction_Return _ _ _ Hbin). by cbn.
    - rewrite (bin_real_Return _ _ _ Hbin). by cbn. }
  destruct Hfields as (EN & Ey & Ex).
  apply set_scan_shape_stuck; rewrite ?EN, ?Ey, ?Ex; try lia.
  destruct axes; injection Hext as <- <-; cbn [bin] in Hbin.
  - destruct (bin_diffraction_samples_spec self f _ _ _ _ Hwf Hrec Hf HA HB)
      as (s & E & _ & Hsh & _).
    rewrite Hbin in E. injection E as <-.
    unfold size at 1. rewrite Hsh, prod_4, HN.
    assert (0 < Q_Ny self) by nia. assert (0 < Q_Nx self) by nia.
    pose proof (Z.div_lt (Q_Ny self) f ltac:(lia) Hf).
    pose proof (Z.div_le_upper_bound (Q_Nx self) f (Q_Nx self) ltac:(lia) ltac:(nia)).
    pose proof (Z.div_pos (Q_Ny self) f ltac:(lia) ltac:(lia)).
    pose proof (Z.div_pos (Q_Nx self) f ltac:(lia) ltac:(lia)).
    assert (Hlt : Q_Ny self / f * (Q_Nx self / f) < Q_Ny self * Q_Nx self)
      by nia.
    assert (HP : 0 < R_Ny self * R_Nx self) by nia.
    intros Heq.
    replace (R_Ny self * R_Nx self * (Q_Ny self / f) * (Q_Nx self / f))
      with (R_Ny self * R_Nx self * (Q_Ny self / f * (Q_Nx self / f)))
      in Heq by ring.
    replace (R_Ny self * R_Nx self * Q_Ny self * Q_Nx self)
      with (R_Ny self * R_Nx self * (Q_Ny self * Q_Nx self)) in Heq by ring.
    apply Z.mul_reg_l in Heq; lia.
  - destruct (bin_real_samples_spec self f _ _ _ _ Hwf Hrec Hf HA HB)
      as (s & E & _ & Hsh & _).
    rewrite Hbin in E. injection E as <-.
    unfold size at 1. rewrite Hsh, prod_4, HN.
    assert (0 < R_Ny self) by nia. assert (0 < R_Nx self) by nia.
    pose proof (Z.div_lt (R_Ny self) f ltac:(lia) Hf).
    pose proof (Z.div_le_upper_bound (R_Nx self) f (R_Nx self) ltac:(lia) ltac:(nia)).
    pose proof (Z.div_pos (R_Ny self) f ltac:(lia) ltac:(lia)).
    pose proof (Z.div_pos (R_Nx self) f ltac:(lia) ltac:(lia)).
    assert (Hlt : R_Ny self / f * (R_Nx self / f) < R_Ny self * R_Nx self)
      by nia.
    assert (HP : 0 < Q_Ny self * Q_Nx self) by nia.
    intros Heq.
    replace (R_Ny self / f * (R_Nx self / f) * Q_Ny self * Q_Nx self)
      with (Q_Ny self * Q_Nx self * (R_Ny self / f * (R_Nx self / f)))
      in Heq by ring.
    replace (R_Ny self * R_Nx self * Q_Ny self * Q_Nx self)
      with (Q_Ny self * Q_Nx self * (R_Ny self * R_Nx self)) in Heq by ring.
    apply Z.mul_reg_l in Heq; lia.
Qed.

(** X13: a DataCube constructed from an array whose element count is not the
    product of the non-negative extents it is given keeps the array as it
    came, records the extents all the same, raises nothing, and can never
    be reshaped. *)
Theorem DataCube_init_mismatch data ny nx qy qx short all fname :
  0 <= ny -> 0 <= nx -> 0 <= qy -> 0 <= qx ->
  size data <> ny * nx * qy * qx ->
  let self := DataCube_init data ny nx qy qx short all fname in
  data4D self = data /\
  recorded_shape self = [ny; nx; qy; qx] /\
  forall a b, set_scan_shape self a b = self.
Proof.
  intros Hy Hx Hqy Hqx Hne.
  assert (E : set_scan_shape
                (mk_DataCube fname data ny nx qy qx (ny * nx) None) ny nx
              = mk_DataCube fname data ny nx qy qx (ny * nx) None).
  { apply set_scan_shape_stuck; cbn [R_N Q_Ny Q_Nx data4D]; nia. }
  cbv zeta. unfold DataCube_init. rewrite E.
  split; [reflexivity|]. split; [reflexivity|].
  apply set_scan_shape_stuck;
    cbn [R_N Q_Ny Q_Nx data4D set_metadata]; nia.
Qed.

(* ===================================================================== *)
(** ** Transposition *)
(* ===================================================================== *)

Lemma columns_spec (n : nat) (rows : list (list Z)) :
  Forall (fun row => length row = n) rows ->
  length (columns n rows) = n /\
  Forall (fun col => length col = length rows) (columns n rows) /\
  forall j, (j < n)%nat ->
    nth j (columns n rows) [] = map (fun row => nth j row 0) rows.
Proof.
  unfold columns.
  induction 1 as [|row rows Hlen _ (IHl & IHa & IHn)]; cbn [foldr map length].
  - split; [apply length_replicate|]. split.
    + apply Forall_forall. intros col Hin.
      apply elem_of_replicate in Hin as [-> _]. reflexivity.
    + intros j Hj. revert j Hj. induction n as [|n IHn]; intros [|j] Hj;
        cbn; try lia; [reflexivity|]. apply IHn. lia.
  - split; [rewrite length_zip_with; lia|]. split.
    + revert IHa IHl. generalize (foldr (zip_with cons) (replicate n []) rows).
      clear IHn. revert n Hlen.
      induction row as [|x row IHrow]; intros n Hlen cols Ha Hl;
        destruct cols as [|col cols]; cbn [zip_with]; try constructor.
      * cbn. apply Forall_cons in Ha as [Hc _]. by rewrite Hc.
      * apply Forall_cons in Ha as [_ Ha]. cbn in Hlen, Hl.
        apply (IHrow (pred n)); [lia|exact Ha|lia].
    + intros j Hj. rewrite <- IHn by exact Hj.
      revert IHl. generalize (foldr (zip_with cons) (replicate n []) rows).
      clear IHa IHn. revert n Hlen j Hj.
      induction row as [|x row IHrow]; intros n Hlen j Hj cols Hl.
      * cbn in Hlen. lia.
      * destruct cols as [|col cols]; [cbn in Hlen, Hl; lia|].
        destruct j as [|j]; cbn [zip_with nth]; [reflexivity|].
        cbn in Hlen, Hl. apply (IHrow (pred n)); lia.
Qed.

Lemma transpose_flat_cons (d : Z) (rest fl : list Z) :
  transpose_flat (d :: rest) fl =
  concat (columns (Z.to_nat (prod rest))
            (map (transpose_flat rest)
               (chunks (Z.to_nat (prod rest)) (Z.to_nat d) fl))).
Proof. reflexivity. Qed.

Lemma transpose_flat_1 (c : Z) (row : list Z) :
  length row = Z.to_nat c -> transpose_flat [c] row = row.
Proof.
  intros Hlen. rewrite transpose_flat_cons.
  change (Z.to_nat (prod [])) with 1%nat.
  change (transpose_flat []) with (fun fl : list Z => fl). rewrite map_id.
  assert (E : forall (n : nat) (l : list Z), length l = n ->
              columns 1 (chunks 1 n l) = [l]).
  { clear. induction n as [|n IH]; intros l Hl.
    - by destruct l.
    - destruct l as [|x l]; [discriminate|]. cbn [chunks take drop].
      unfold columns in *. cbn [foldr]. rewrite IH by (by injection Hl).
      reflexivity. }
  rewrite E by exact Hlen. cbn. apply app_nil_r.
Qed.

(** The transpose of a two-dimensional array: the extents swapped, the
    sample at [j, i] the one that was at [i, j]. *)
Lemma T_2d (a : ndarray) (r c : Z) :
  wf_ndarray a -> shape a = [r; c] ->
  wf_ndarray (T a) /\ shape (T a) = [c; r] /\
  forall i j : nat, (i < Z.to_nat r)%nat -> (j < Z.to_nat c)%nat ->
    get2 (T a) j i = get2 a i j.
Proof.
  intros [Hnn Hlen] Hsh. unfold size in Hlen. rewrite Hsh in Hnn, Hlen.
  apply Forall_cons in Hnn as [Hr Hnn]. apply Forall_cons in Hnn as [Hc _].
  assert (Hl : length (flat a) = (Z.to_nat r * Z.to_nat c)%nat).
  { unfold prod in Hlen. cbn [foldr] in Hlen.
    rewrite <- Z2Nat.inj_mul by lia. lia. }
  unfold T. rewrite Hsh. cbn [rev app shape flat].
  rewrite transpose_flat_cons.
  replace (Z.to_nat (prod [c])) with (Z.to_nat c)
    by (unfold prod; cbn [foldr]; f_equal; lia).
  set (C := Z.to_nat c) in *. set (R := Z.to_nat r) in *.
  assert (Hrows : Forall (fun row => length row = C) (chunks C R (flat a)))
    by (by apply chunks_each_length).
  assert (Hmap : map (transpose_flat [c]) (chunks C R (flat a))
                 = chunks C R (flat a)).
  { rewrite <- (map_id (chunks C R (flat a))) at 2.
    apply map_ext_in. intros row Hin. apply transpose_flat_1.
    rewrite Forall_forall in Hrows. apply Hrows.
    by apply list_elem_of_In. }
  rewrite Hmap.
  destruct (columns_spec C _ Hrows) as (Hcl & Hca & Hcn).
  rewrite chunks_length in Hca.
  split; [split; cbn [shape flat]|split; [reflexivity|]].
  - repeat constructor; lia.
  - rewrite (length_concat_uniform R _ Hca), Hcl.
    unfold size, prod. cbn [shape foldr]. lia.
  - intros i j Hi Hj. unfold get2, dim, extent. rewrite Hsh.
    cbn [shape flat nth]. fold R C.
    rewrite (nth_concat_uniform R j i _ Hca Hi).
    rewrite Hcn by exact Hj.
    rewrite (nth_indep _ 0 (nth j [] 0))
      by (rewrite length_map, chunks_length; exact Hi).
    rewrite (map_nth (fun row => nth j row 0)), nth_chunks.
    destruct (Nat.ltb_spec i R); [|lia].
    apply (nth_block C R i j). exact Hj.
Qed.

(* ===================================================================== *)
(** ** The diffraction-space view *)
(* ===================================================================== *)

Lemma index_first_spec (a : ndarray) (d : Z) (rest : list Z) (i : Z) :
  wf_ndarray a -> shape a = d :: rest -> - d <= i < d ->
  let n := Z.to_nat (prod rest) in
  let a1 := mk_ndarray rest (take n (drop (Z.to_nat (i mod d) * n) (flat a))) in
  index_first a i = Some a1 /\ wf_ndarray a1.
Proof.
  intros [Hnn Hlen] Hsh Hi. unfold size in Hlen. rewrite Hsh in Hnn, Hlen.
  apply Forall_cons in Hnn as [Hd Hrest].
  pose proof (prod_nonneg rest Hrest) as Hp.
  cbv zeta. split.
  - unfold index_first. rewrite Hsh.
    destruct (Z.leb_spec (- d) i); [|lia]. destruct (Z.ltb_spec i d); [|lia].
    cbn [andb].
    assert (Em : (if i <? 0 then i + d else i) = i mod d).
    { destruct (Z.ltb_spec i 0).
      - rewrite <- (Z.mod_add i 1 d) by lia. rewrite Z.mul_1_l.
        symmetry. apply Z.mod_small. lia.
      - symmetry. apply Z.mod_small. lia. }
    by rewrite Em.
  - split; cbn [shape flat]; [exact Hrest|].
    unfold size. cbn [shape].
    change (prod (d :: rest)) with (d * prod rest) in Hlen.
    pose proof (Z.mod_pos_bound i d ltac:(lia)) as Hm.
    rewrite (length_chunk _ (Z.to_nat d)); [lia| |lia].
    rewrite <- Z2Nat.inj_mul by lia. lia.
Qed.

Lemma index_first_out_of_range (a : ndarray) (d : Z) (rest : list Z) (i : Z) :
  shape a = d :: rest -> ~ (- d <= i < d) -> index_first a i = None.
Proof.
  intros Hsh Hi. unfold index_first. rewrite Hsh.
  destruct (Z.leb_spec (- d) i); destruct (Z.ltb_spec i d); try reflexivity.
  lia.
Qed.

Lemma index_yx_spec (a : ndarray) (ry rx qy qx y x : Z) :
  wf_ndarray a -> shape a = [ry; rx; qy; qx] ->
  - ry <= y < ry -> - rx <= x < rx ->
  exists image,
    index_yx a y x = Some image /\ wf_ndarray image /\
    shape image = [qy; qx] /\
    forall i j : nat, (i < Z.to_nat qy)%nat -> (j < Z.to_nat qx)%nat ->
      get2 image i j
      = get4 a (Z.to_nat (y mod ry)) (Z.to_nat (x mod rx)) i j.
Proof.
  intros Hwf Hsh Hy Hx.
  destruct (wf_shape_4 _ _ _ _ _ Hwf Hsh) as (H0 & H1 & H2 & H3 & Hlen).
  destruct (index_first_spec a ry [rx; qy; qx] y Hwf Hsh Hy) as [E1 Hwf1].
  set (n1 := Z.to_nat (prod [rx; qy; qx])) in *.
  set (a1 := mk_ndarray [rx; qy; qx] _) in *.
  destruct (index_first_spec a1 rx [qy; qx] x Hwf1 eq_refl Hx) as [E2 Hwf2].
  set (n2 := Z.to_nat (prod [qy; qx])) in *.
  set (a2 := mk_ndarray [qy; qx] _) in *.
  exists a2. split.
  { unfold index_yx. rewrite Hsh. cbn [length Nat.ltb Nat.leb].
    rewrite E1. cbn. exact E2. }
  split; [exact Hwf2|]. split; [reflexivity|].
  intros i j Hi Hj.
  destruct (dim_shape_4 _ _ _ _ _ Hsh) as (_ & D1 & D2 & D3).
  unfold get2, get4. rewrite D1, D2, D3.
  replace (dim a2 1) with (Z.to_nat qx) by reflexivity.
  cbn [flat a2 a1].
  assert (N2 : n2 = (Z.to_nat qy * (Z.to_nat qx * 1))%nat)
    by (unfold n2; rewrite to_nat_prod; [reflexivity|repeat constructor; lia]).
  assert (N1 : n1 = (Z.to_nat rx * n2)%nat).
  { unfold n1. rewrite to_nat_prod by (repeat constructor; lia).
    rewrite N2. reflexivity. }
  pose proof (Z.mod_pos_bound y ry ltac:(lia)) as My.
  pose proof (Z.mod_pos_bound x rx ltac:(lia)) as Mx.
  set (Y := Z.to_nat (y mod ry)). set (X := Z.to_nat (x mod rx)).
  assert (HX : (X < Z.to_nat rx)%nat) by (unfold X; lia).
  pose proof (offset_lt _ _ i j Hi Hj) as L1.
  rewrite (nth_block n2 (Z.to_nat rx) X) by lia.
  rewrite (nth_block n1 (Z.to_nat ry) Y) by nia.
  f_equal. rewrite N1, N2. lia.
Qed.

Lemma diffraction_view_in_range_spec (self : DataCube) (ry rx qy qx y x : Z) :
  wf_ndarray (data4D self) ->
  shape (data4D self) = [ry; rx; qy; qx] ->
  - ry <= y < ry -> - rx <= x < rx ->
  exists image,
    get_diffraction_space_view self y x = ((x, y), (ObjArray image, 1)) /\
    wf_ndarray image /\ shape image = [qx; qy] /\
    forall i j : nat, (i < Z.to_nat qy)%nat -> (j < Z.to_nat qx)%nat ->
      get2 image j i
      = get4 (data4D self) (Z.to_nat (y mod ry)) (Z.to_nat (x mod rx)) i j.
Proof.
  intros Hwf Hsh Hy Hx.
  destruct (index_yx_spec _ _ _ _ _ y x Hwf Hsh Hy Hx)
    as (img & E & Hwfi & Hshi & G).
  destruct (T_2d img qy qx Hwfi Hshi) as (HwfT & HshT & GT).
  exists (T img). unfold get_diffraction_space_view. rewrite E.
  split; [reflexivity|]. split; [exact HwfT|]. split; [exact HshT|].
  intros i j Hi Hj. rewrite GT by assumption. by apply G.
Qed.

(** X14: [get_diffraction_space_view(y, x)] with [y] from [-ry] to [ry - 1] and
    [x] from [-rx] to [rx - 1]: the flag is 1, the image has the extents
    [qx, qy], and its sample at [j, i] is the sample [i, j] of the pattern
    at scan position [y, x], a negative index counting from the end of its
    axis. *)
Theorem diffraction_view_in_range (self : DataCube) (ry rx qy qx y x : Z) :
  wf_ndarray (data4D self) ->
  shape (data4D self) = [ry; rx; qy; qx] ->
  - ry <= y < ry -> - rx <= x < rx ->
  exists image,
    get_diffraction_space_view self y x = ((x, y), (ObjArray image, 1)) /\
    wf_ndarray image /\ shape image = [qx; qy] /\
    forall i j : nat, (i < Z.to_nat qy)%nat -> (j < Z.to_nat qx)%nat ->
      get2 image j i
      = get4 (data4D self) (Z.to_nat (y mod ry)) (Z.to_nat (x mod rx)) i j.
Proof. exact (diffraction_view_in_range_spec self ry rx qy qx y x). Qed.

(** X15: [get_diffraction_space_view(y, x)] with [y] or [x] outside the bounds
    of its scan axis, or on an array of fewer than four axes: the method
    raises nothing and returns the integers [0, 0]; [self.x] and [self.y]
    are set all the same. *)
Theorem diffraction_view_out_of_range (self : DataCube) (y x : Z) :
  (length (shape (data4D self)) < 4)%nat \/
  (exists ry rx qy qx,
      shape (data4D self) = [ry; rx; qy; qx] /\
      ~ (- ry <= y < ry /\ - rx <= x < rx)) ->
  get_diffraction_space_view self y x = ((x, y), (ObjInt 0, 0)).
Proof.
  intros H. unfold get_diffraction_space_view.
  assert (E : index_yx (data4D self) y x = None); [|by rewrite E].
  unfold index_yx. destruct H as [H|(ry & rx & qy & qx & Hsh & Hout)].
  - destruct (Nat.ltb_spec (length (shape (data4D self))) 4); [reflexivity|lia].
  - assert (E1 : index_first (data4D self) y
                 = if (- ry <=? y) && (y <? ry)
                   then Some (mk_ndarray [rx; qy; qx]
                                (take (Z.to_nat (prod [rx; qy; qx]))
                                   (drop (Z.to_nat (if y <? 0 then y + ry else y)
                                          * Z.to_nat (prod [rx; qy; qx]))
                                      (flat (data4D self)))))
                   else None)
      by (unfold index_first; by rewrite Hsh).
    rewrite Hsh, E1. cbn [length Nat.ltb Nat.leb].
    destruct ((- ry <=? y) && (y <? ry)) eqn:Ey; [|reflexivity].
    apply andb_true_iff in Ey as [Ey1 Ey2].
    apply Z.leb_le in Ey1. apply Z.ltb_lt in Ey2.
    cbn.
    destruct (Z.leb_spec (- rx) x); destruct (Z.ltb_spec x rx);
      try reflexivity.
    exfalso. apply Hout. lia.
Qed.

(* ===================================================================== *)
(** ** Slices *)
(* ===================================================================== *)




(** A zero step is refused whatever the axis. *)
Lemma slice_indices_zero_step (s : pyslice) (n : Z) :
  sl_step s = Some 0 -> slice_indices s n = None.
Proof. intros H. unfold slice_indices. by rewrite H. Qed.


(* ===================================================================== *)
(** ** The real-space view *)
(* ===================================================================== *)












(** A slice with step zero makes the view raise [ValueError]; an array of
    fewer than four axes makes it raise [IndexError].  Neither is caught. *)
Lemma real_space_view_raises (self : DataCube) (slice_y slice_x : pyslice) :
  ((length (shape (data4D self)) < 4)%nat ->
   get_real_space_view self slice_y slice_x = inl IndexError) /\
  ((4 <= length (shape (data4D self)))%nat ->
   sl_step slice_y = Some 0 \/ sl_step slice_x = Some 0 ->
   get_real_space_view self slice_y slice_x = inl (OtherError ValueError)).
Proof.
  unfold get_real_space_view, slice_qq. split.
  - intros H. destruct (Nat.ltb_spec (length (shape (data4D self))) 4);
      [reflexivity|lia].
  - intros H Hstep.
    destruct (Nat.ltb_spec (length (shape (data4D self))) 4); [lia|].
    destruct Hstep as [Hs|Hs].
    + by rewrite (slice_indices_zero_step _ _ Hs).
    + rewrite (slice_indices_zero_step slice_x _ Hs).
      by destruct (slice_indices slice_y _).
Qed.

(* ===================================================================== *)
(** ** More on the tree search and the metadata dictionaries *)
(* ===================================================================== *)

Lemma first_leaf_found_iff key leaves :
  (first_leaf key leaves).1 = true <-> In key (map fst leaves).
Proof.
  induction leaves as [|[k v] rest IH]; cbn [first_leaf map fst In].
  - split; [discriminate|tauto].
  - destruct (String.eqb_spec key k) as [->|Hne]; cbn [fst].
    + split; auto.
    + rewrite IH. split; [auto|]. intros [H|H]; [congruence|exact H].
Qed.

(** X18: the search finds a key exactly when some leaf of the tree, at any
    depth, is stored under it; the keys of subtrees do not count. *)
Theorem search_found_iff (key : string) (t : DictionaryTreeBrowser) :
  (search_hs_tree key (Some t)).1 = true
  <-> In key (map fst (leaves_preorder t)).
Proof.
  cbn [search_hs_tree]. rewrite search_tree_first_leaf.
  apply first_leaf_found_iff.
Qed.

(** What [resolve] settles on, in terms of the search alone. *)
Lemma resolve_first_found hs_tree (before after : list string) key v :
  Forall (fun k => (search_hs_tree k hs_tree).1 = false) before ->
  search_hs_tree key hs_tree = (true, v) ->
  resolve hs_tree (before ++ key :: after) = v.
Proof.
  intros Hb Hk. induction Hb as [|k before Hk0 _ IH]; cbn [app resolve].
  - by rewrite Hk.
  - by rewrite Hk0.
Qed.

Lemma resolve_none_found hs_tree (keys : list string) :
  Forall (fun k => (search_hs_tree k hs_tree).1 = false) keys ->
  resolve hs_tree keys = VStr EmptyString.
Proof.
  induction 1 as [|k keys Hk _ IH]; cbn [resolve]; [reflexivity|].
  by rewrite Hk.
Qed.

Lemma dom_foldl_insert (f : list string -> value)
    (sd : list (string * list string)) (d : gmap string value) :
  dom (foldl (fun d item => <[item.1 := f item.2]> d) d sd)
  = dom d ∪ list_to_set sd.*1.
Proof.
  revert d. induction sd as [|[a ks] sd IH]; intros d; cbn [foldl].
  - cbn. by rewrite union_empty_r_L.
  - rewrite IH, dom_insert_L. cbn [fst snd fmap list_fmap list_to_set].
    by rewrite (union_comm_L {[a]} (dom d)), <- union_assoc_L.
Qed.

Lemma foldl_insert_agree (f : list string -> value)
    (sd : list (string * list string)) (d1 d2 : gmap string value) :
  (forall a, a ∉ sd.*1 -> d1 !! a = d2 !! a) ->
  foldl (fun d item => <[item.1 := f item.2]> d) d1 sd
  = foldl (fun d item => <[item.1 := f item.2]> d) d2 sd.
Proof.
  revert d1 d2. induction sd as [|[k ks] sd IH]; intros d1 d2 Hagree.
  - apply map_eq. intros a. apply Hagree. cbn. apply not_elem_of_nil.
  - cbn [foldl fst snd]. apply IH. intros a Ha.
    destruct (decide (k = a)) as [->|Hne].
    + by rewrite !lookup_insert_eq.
    + rewrite !lookup_insert_ne by exact Hne. apply Hagree.
      rewrite fmap_cons. cbn [fst]. apply not_elem_of_cons. split; [auto|exact Ha].
Qed.

(** X19: one pass of [get_metadata_from_original_metadata] over a search
    dictionary: every field of the dictionary is a key afterwards, found or
    not; the first candidate key the tree has decides the value, the empty
    string stands for none; keys outside the search dictionary keep what
    they had. *)
Theorem get_metadata_pass hs_tree (sd : list (string * list string))
    (d : gmap string value) :
  NoDup sd.*1 ->
  let d' := get_metadata_from_original_metadata hs_tree sd d in
  dom d' = dom d ∪ list_to_set sd.*1 /\
  (forall attr, attr ∉ sd.*1 -> d' !! attr = d !! attr) /\
  (forall attr before key after v,
      (attr, before ++ key :: after) ∈ sd ->
      Forall (fun k => (search_hs_tree k hs_tree).1 = false) before ->
      search_hs_tree key hs_tree = (true, v) ->
      d' !! attr = Some v) /\
  (forall attr keys,
      (attr, keys) ∈ sd ->
      Forall (fun k => (search_hs_tree k hs_tree).1 = false) keys ->
      d' !! attr = Some (VStr EmptyString)).
Proof.
  intros Hnd. cbv zeta. rewrite get_metadata_inserts.
  split; [apply dom_foldl_insert|]. split; [|split].
  - intros attr Hnot. by apply foldl_insert_other.
  - intros attr before key after v Hin Hb Hk.
    rewrite (foldl_insert_lookup _ _ _ _ _ Hnd Hin).
    f_equal. by apply resolve_first_found.
  - intros attr keys Hin Hnone.
    rewrite (foldl_insert_lookup _ _ _ _ _ Hnd Hin).
    f_equal. by apply resolve_none_found.
Qed.

(** X20: a pass over a search dictionary wipes what an earlier pass over the
    same dictionary had found, whatever the trees: the result is that of
    the later pass alone, and a pass done twice is a pass done once. *)
Theorem get_metadata_pass_overwrites hs_tree1 hs_tree2
    (sd : list (string * list string)) (d : gmap string value) :
  get_metadata_from_original_metadata hs_tree2 sd
    (get_metadata_from_original_metadata hs_tree1 sd d)
  = get_metadata_from_original_metadata hs_tree2 sd d.
Proof.
  rewrite !get_metadata_inserts. apply foldl_insert_agree.
  intros a Ha. by apply foldl_insert_other.
Qed.

(** X21: with an absent tree every field of the search dictionary is the empty
    string. *)
Theorem get_metadata_absent_tree (sd : list (string * list string))
    (d : gmap string value) (attr : string) :
  attr ∈ sd.*1 ->
  get_metadata_from_original_metadata None sd d !! attr
  = Some (VStr EmptyString).
Proof.
  intros Hin. rewrite get_metadata_inserts.
  assert (Hres : forall keys, resolve None keys = VStr EmptyString).
  { intros keys. apply resolve_none_found. by apply Forall_forall. }
  revert d. induction sd as [|[a ks] sd IH]; intros d.
  - by apply elem_of_nil in Hin.
  - cbn [foldl fst snd]. rewrite Hres.
    destruct (decide (attr ∈ sd.*1)) as [Hrest|Hrest]; [by apply IH|].
    rewrite foldl_insert_other by exact Hrest.
    rewrite fmap_cons in Hin. cbn [fst] in Hin.
    apply elem_of_cons in Hin as [->|Hin]; [|contradiction].
    apply lookup_insert_eq.
Qed.

(** X22: [setup_metadata]: the two trees are kept as they came, and each of the
    six dictionaries has the fields of its search dictionary as keys, no
    more and no less, whatever the trees. *)
Theorem setup_metadata_fields (short all : option DictionaryTreeBrowser)
    (c : category) :
  original_shortlist (setup_metadata short all) = short /\
  original_all (setup_metadata short all) = all /\
  dom (category_dict c (setup_metadata short all))
  = list_to_set (search_dict c).*1.
Proof.
  split; [reflexivity|]. split; [reflexivity|].
  rewrite setup_metadata_category, !get_metadata_inserts, !dom_foldl_insert.
  by rewrite dom_empty_L, union_empty_l_L, union_idemp_L.
Qed.

(** An item added by hand under a key that is no field of the search
    dictionary survives a later pass, which goes on as if the item were not
    there; under a field of the dictionary it is overwritten. *)
Lemma add_metadata_item_and_pass hs_tree
    (sd : list (string * list string)) (d : gmap string value)
    (key : string) (v : value) :
  (key ∉ sd.*1 ->
   get_metadata_from_original_metadata hs_tree sd (add_metadata_item key v d)
   = add_metadata_item key v
       (get_metadata_from_original_metadata hs_tree sd d)) /\
  (key ∈ sd.*1 ->
   get_metadata_from_original_metadata hs_tree sd (add_metadata_item key v d)
   = get_metadata_from_original_metadata hs_tree sd d).
Proof.
  unfold add_metadata_item. rewrite !get_metadata_inserts. split.
  - intros Hnot. revert d. induction sd as [|[a ks] sd IH]; intros d;
      [reflexivity|].
    rewrite fmap_cons in Hnot. cbn [fst] in Hnot.
    apply not_elem_of_cons in Hnot as [Hne Hnot].
    cbn [foldl fst snd]. rewrite <- IH by exact Hnot.
    f_equal. by apply insert_insert_ne.
  - intros Hin. apply foldl_insert_agree. intros a Ha.
    apply lookup_insert_ne. intros ->. contradiction.
Qed.

(* ===================================================================== *)
(** ** What [set_scan_shape] keeps *)
(* ===================================================================== *)

(** X23: on a DataCube with samples, [set_scan_shape] with non-negative extents
    keeps the array in the recorded shape and [R_N] the number of scan
    positions, whether it grants the request or not; the samples and their
    order, the diffraction extents, the file name and the metadata are
    never touched. *)
Theorem set_scan_shape_keeps_consistent (self : DataCube) (ny nx : Z) :
  consistent self -> 0 < size (data4D self) -> 0 <= ny -> 0 <= nx ->
  let self' := set_scan_shape self ny nx in
  consistent self' /\
  flat (data4D self') = flat (data4D self) /\
  (Q_Ny self', Q_Nx self', filename self', metadata self')
  = (Q_Ny self, Q_Nx self, filename self, metadata self) /\
  (ny * nx * Q_Ny self * Q_Nx self = size (data4D self) ->
   recorded_shape self' = [ny; nx; Q_Ny self; Q_Nx self]) /\
  (ny * nx * Q_Ny self * Q_Nx self <> size (data4D self) -> self' = self).
Proof.
  intros (Hwf & Hrec & HN) Hpos Hy Hx. unfold recorded_shape in Hrec.
  destruct (wf_shape_4 _ _ _ _ _ Hwf Hrec) as (H0 & H1 & H2 & H3 & Hlen).
  assert (Hsz : size (data4D self)
                = R_Ny self * R_Nx self * Q_Ny self * Q_Nx self)
    by (unfold size; rewrite Hrec; apply prod_4).
  assert (E : set_scan_shape self ny nx =
              if size (data4D self) =? ny * nx * Q_Ny self * Q_Nx self
              then set_R (set_data4D self
                            (mk_ndarray [ny; nx; Q_Ny self; Q_Nx self]
                               (flat (data4D self)))) ny nx
              else self).
  { unfold set_scan_shape.
    rewrite (reshape_nonneg (data4D self)) by (repeat constructor; lia).
    replace (prod [R_N self; Q_Ny self; Q_Nx self]) with (size (data4D self))
      by (rewrite Hsz, HN; unfold prod; cbn [foldr]; lia).
    rewrite Z.eqb_refl.
    rewrite reshape_nonneg by (by apply Forall_nonneg_4).
    unfold size at 1. cbn [shape].
    replace (prod [R_N self; Q_Ny self; Q_Nx self]) with (size (data4D self))
      by (rewrite Hsz, HN; unfold prod; cbn [foldr]; lia).
    rewrite prod_4.
    by destruct (size (data4D self) =? ny * nx * Q_Ny self * Q_Nx self). }
  cbv zeta. rewrite E.
  destruct (Z.eqb_spec (size (data4D self)) (ny * nx * Q_Ny self * Q_Nx self))
    as [Heq|Hne].
  - split; [|split; [reflexivity|split; [reflexivity|split; [reflexivity|lia]]]].
    split; [|split; [reflexivity|]]; cbn [data4D set_R set_data4D R_N R_Ny R_Nx].
    + apply wf_mk; [by apply Forall_nonneg_4|].
      rewrite prod_4, <- Heq. by destruct Hwf.
    + rewrite HN. 
      assert (0 < Q_Ny self * Q_Nx self) by nia.
      apply (Z.mul_reg_r _ _ (Q_Ny self * Q_Nx self)); lia.
  - split; [split; [exact Hwf|split; [exact Hrec|exact HN]]|].
    split; [reflexivity|]. split; [reflexivity|].
    split; [intros Heq; congruence|reflexivity].
Qed.

Lemma filter_unknown_one (u : Z) (dims : list Z) :
  u < 0 -> Forall (fun d => 0 <= d) dims ->
  filter (fun d => is_unknown d = true) (u :: dims) = [u] /\
  known_prod (u :: dims) = prod dims.
Proof.
  intros Hu Hall. unfold known_prod.
  assert (Eu : is_unknown u = true) by (unfold is_unknown; by apply Z.ltb_lt).
  rewrite (filter_cons_True (fun d => is_unknown d = true)) by exact Eu.
  rewrite (filter_cons_False (fun d => is_unknown d = false)) by congruence.
  rewrite filter_unknown_nonneg by exact Hall. split; [reflexivity|].
  f_equal. clear Hu Eu.
  induction Hall as [|d dims Hd _ IH]; [reflexivity|].
  rewrite filter_cons_True; [by rewrite IH|].
  unfold is_unknown. apply Z.ltb_ge. exact Hd.
Qed.

(** X24: a first extent of [-1] is an extent for numpy to infer: when the second
    extent divides the number of scan positions, the array is reshaped to
    [R_N / nx] rows of [nx] scan positions, and the DataCube records
    [R_Ny = -1]. *)
Theorem set_scan_shape_infers (self : DataCube) (nx : Z) :
  consistent self -> 0 < size (data4D self) ->
  0 < nx -> R_N self mod nx = 0 ->
  let self' := set_scan_shape self (-1) nx in
  shape (data4D self') = [R_N self / nx; nx; Q_Ny self; Q_Nx self] /\
  recorded_shape self' = [-1; nx; Q_Ny self; Q_Nx self] /\
  flat (data4D self') = flat (data4D self).
Proof.
  intros (Hwf & Hrec & HN) Hpos Hnx Hdiv. unfold recorded_shape in Hrec.
  destruct (wf_shape_4 _ _ _ _ _ Hwf Hrec) as (H0 & H1 & H2 & H3 & Hlen).
  assert (Hsz : size (data4D self)
                = R_N self * (Q_Ny self * Q_Nx self))
    by (unfold size; rewrite Hrec, prod_4, HN; lia).
  assert (HQ : 0 < Q_Ny self * Q_Nx self) by nia.
  assert (E : set_scan_shape self (-1) nx
              = set_R (set_data4D self
                         (mk_ndarray [R_N self / nx; nx; Q_Ny self; Q_Nx self]
                            (flat (data4D self)))) (-1) nx).
  { unfold set_scan_shape.
    rewrite (reshape_nonneg (data4D self)) by (repeat constructor; nia).
    replace (prod [R_N self; Q_Ny self; Q_Nx self]) with (size (data4D self))
      by (rewrite Hsz; unfold prod; cbn [foldr]; lia).
    rewrite Z.eqb_refl. unfold reshape.
    destruct (filter_unknown_one (-1) [nx; Q_Ny self; Q_Nx self] ltac:(lia))
      as [Ef Ek]; [repeat constructor; lia|].
    rewrite Ef, Ek. unfold size. cbn [shape flat].
    replace (prod [R_N self; Q_Ny self; Q_Nx self])
      with (R_N self * (Q_Ny self * Q_Nx self))
      by (unfold prod; cbn [foldr]; lia).
    replace (prod [nx; Q_Ny self; Q_Nx self])
      with (nx * (Q_Ny self * Q_Nx self)) by (unfold prod; cbn [foldr]; lia).
    assert (Ediv : R_N self * (Q_Ny self * Q_Nx self)
                   / (nx * (Q_Ny self * Q_Nx self)) = R_N self / nx)
      by (apply Z.div_mul_cancel_r; lia).
    assert (Emod : (R_N self * (Q_Ny self * Q_Nx self))
                   mod (nx * (Q_Ny self * Q_Nx self)) = 0).
    { rewrite Z.mul_mod_distr_r by lia. rewrite Hdiv. lia. }
    rewrite Emod, Ediv.
    destruct (Z.eqb_spec (nx * (Q_Ny self * Q_Nx self)) 0) as [E0|_]; [nia|].
    cbn [orb negb Z.eqb map]. unfold is_unknown.
    destruct (Z.ltb_spec nx 0); [lia|].
    destruct (Z.ltb_spec (Q_Ny self) 0); [lia|].
    destruct (Z.ltb_spec (Q_Nx self) 0); [lia|].
    reflexivity. }
  cbv zeta. rewrite E. repeat split.
Qed.

(** X25: the error cases of [get_real_space_view]: fewer than four axes raise
    [IndexError]; on four axes or more, a slice with step zero raises
    [ValueError].  Neither is caught. *)
Theorem real_space_view_error (self : DataCube) (slice_y slice_x : pyslice)
    (e : index_exn) :
  ((length (shape (data4D self)) < 4)%nat /\ e = IndexError) \/
  ((4 <= length (shape (data4D self)))%nat /\
   (sl_step slice_y = Some 0 \/ sl_step slice_x = Some 0) /\
   e = OtherError ValueError) ->
  get_real_space_view self slice_y slice_x = inl e.
Proof.
  intros [[H ->]|(H & Hs & ->)].
  - by apply real_space_view_raises.
  - by apply real_space_view_raises.
Qed.

(** X26: an item added by hand under a key that is no field of the search
    dictionary survives a later pass, which goes on as if the item were not
    there; under a field of the dictionary it is overwritten. *)
Theorem add_metadata_item_then_pass hs_tree
    (sd : list (string * list string)) (d : gmap string value)
    (key : string) (v : value) :
  get_metadata_from_original_metadata hs_tree sd (add_metadata_item key v d)
  = if bool_decide (key ∈ sd.*1)
    then get_metadata_from_original_metadata hs_tree sd d
    else add_metadata_item key v
           (get_metadata_from_original_metadata hs_tree sd d).
Proof.
  destruct (add_metadata_item_and_pass hs_tree sd d key v) as [Hout Hin].
  case_bool_decide; auto.
Qed.

(* ===================================================================== *)
(** ** The theorems at work *)
(* ===================================================================== *)

Lemma cube_2x3_consistent : consistent cube_2x3.
Proof.
  split; [split; [repeat constructor; vm_compute; discriminate|reflexivity]|].
  split; reflexivity.
Qed.

Lemma cube_2x2x2x4_consistent : consistent cube_2x2x2x4.
Proof.
  split; [split; [repeat constructor; vm_compute; discriminate|reflexivity]|].
  split; reflexivity.
Qed.



Lemma cube_1x1x2x5_wf : wf_ndarray (data4D cube_1x1x2x5).
Proof. split; [repeat constructor; vm_compute; discriminate|reflexivity]. Qed.

Lemma cube_2x5x1x1_wf : wf_ndarray (data4D cube_2x5x1x1).
Proof. split; [repeat constructor; vm_compute; discriminate|reflexivity]. Qed.


Lemma DataCube_init_mismatch_witness :
  let data := mk_ndarray [6] [1; 2; 3; 4; 5; 6] in
  0 <= 2 /\ 0 <= 1 /\ size data <> 2 * 2 * 1 * 1 /\
  set_scan_shape (DataCube_init data 2 2 1 1 None None None) 3 2
  = DataCube_init data 2 2 1 1 None None None.
Proof.
  cbv zeta.
  assert (H2 : 0 <= 2) by lia. assert (H1 : 0 <= 1) by lia.
  assert (Hs : size (mk_ndarray [6] [1; 2; 3; 4; 5; 6]) <> 2 * 2 * 1 * 1)
    by (vm_compute; discriminate).
  repeat (split; [assumption|]).
  destruct (DataCube_init_mismatch (mk_ndarray [6] [1; 2; 3; 4; 5; 6])
              2 2 1 1 None None None H2 H2 H1 H1 Hs) as (_ & _ & E).
  apply E.
Defined.

Lemma set_scan_shape_keeps_consistent_witness :
  consistent cube_2x3 /\ 0 < size (data4D cube_2x3) /\ 0 <= 3 /\ 0 <= 2 /\
  consistent (set_scan_shape cube_2x3 3 2).
Proof.
  assert (Hc := cube_2x3_consistent).
  assert (Hp : 0 < size (data4D cube_2x3)) by reflexivity.
  assert (H3 : 0 <= 3) by lia. assert (H2 : 0 <= 2) by lia.
  repeat (split; [assumption|]).
  exact (proj1 (set_scan_shape_keeps_consistent cube_2x3 3 2 Hc Hp H3 H2)).
Defined.

Lemma set_scan_shape_infers_witness :
  consistent cube_2x3 /\ 0 < size (data4D cube_2x3) /\ 0 < 2 /\
  R_N cube_2x3 mod 2 = 0 /\
  shape (data4D (set_scan_shape cube_2x3 (-1) 2)) = [3; 2; 1; 1] /\
  R_Ny (set_scan_shape cube_2x3 (-1) 2) = -1.
Proof.
  assert (Hc := cube_2x3_consistent).
  assert (Hp : 0 < size (data4D cube_2x3)) by reflexivity.
  assert (H2 : 0 < 2) by lia.
  assert (Hm : R_N cube_2x3 mod 2 = 0) by reflexivity.
  repeat (split; [assumption|]).
  destruct (set_scan_shape_infers cube_2x3 2 Hc Hp H2 Hm) as (E1 & E2 & _).
  split; [exact E1|]. unfold recorded_shape in E2. congruence.
Defined.

Lemma set_scan_shape_stuck_after_binning_witness :
  let binned := state_of (bin_diffraction cube_2x2x2x4 (PyInt 2)) in
  wf_ndarray (data4D cube_2x2x2x4) /\
  shape (data4D cube_2x2x2x4) = recorded_shape cube_2x2x2x4 /\
  R_N cube_2x2x2x4 = R_Ny cube_2x2x2x4 * R_Nx cube_2x2x2x4 /\
  0 < size (data4D cube_2x2x2x4) /\
  pair_extents DiffractionAxes (shape (data4D cube_2x2x2x4)) = Some (2, 4) /\
  1 < 2 /\ 2 mod 2 = 0 /\ 4 mod 2 = 0 /\
  bin DiffractionAxes cube_2x2x2x4 (PyInt 2) = Return binned /\
  set_scan_shape binned 4 1 = binned.
Proof.
  cbv zeta.
  destruct cube_2x2x2x4_consistent as (Hwf & Hrec & HN).
  assert (Hp : 0 < size (data4D cube_2x2x2x4)) by reflexivity.
  assert (He : pair_extents DiffractionAxes (shape (data4D cube_2x2x2x4))
               = Some (2, 4)) by reflexivity.
  assert (Hf : 1 < 2) by lia.
  assert (H2 : 2 mod 2 = 0) by reflexivity.
  assert (H4 : 4 mod 2 = 0) by reflexivity.
  assert (Hb : bin DiffractionAxes cube_2x2x2x4 (PyInt 2)
               = Return (state_of (bin_diffraction cube_2x2x2x4 (PyInt 2))))
    by (vm_compute; reflexivity).
  repeat (split; [assumption|]).
  exact (set_scan_shape_stuck_after_binning DiffractionAxes cube_2x2x2x4 _
           2 2 4 Hwf Hrec HN Hp He Hf H2 H4 Hb 4 1).
Defined.





Lemma bin_diffraction_one_sided_witness :
  wf_ndarray (data4D cube_1x1x2x5) /\
  shape (data4D cube_1x1x2x5) = [1; 1; 2; 5] /\
  1 < 2 /\
  ((2 mod 2 = 0 /\ 5 mod 2 <> 0) \/ (2 mod 2 <> 0 /\ 5 mod 2 = 0)) /\
  0 < 1 * 1 * (2 / 2) * (5 / 2) /\
  exists emptied,
    bin_diffraction cube_1x1x2x5 (PyInt 2)
    = Raise ValueError (set_data4D cube_1x1x2x5 emptied) /\
    flat emptied = [].
Proof.
  assert (Hwf := cube_1x1x2x5_wf).
  assert (Hs : shape (data4D cube_1x1x2x5) = [1; 1; 2; 5]) by reflexivity.
  assert (Hf : 1 < 2) by lia.
  assert (Hone : (2 mod 2 = 0 /\ 5 mod 2 <> 0) \/ (2 mod 2 <> 0 /\ 5 mod 2 = 0))
    by (left; split; [reflexivity|vm_compute; discriminate]).
  assert (Hpos : 0 < 1 * 1 * (2 / 2) * (5 / 2)) by reflexivity.
  repeat (split; [assumption|]).
  destruct (bin_diffraction_one_sided cube_1x1x2x5 2 1 1 2 5
              Hwf Hs Hf Hone Hpos) as (e & E & Hfl & _).
  exists e. by split.
Defined.

Lemma bin_real_one_sided_witness :
  wf_ndarray (data4D cube_2x5x1x1) /\
  shape (data4D cube_2x5x1x1) = [2; 5; 1; 1] /\
  1 < 2 /\
  ((2 mod 2 = 0 /\ 5 mod 2 <> 0) \/ (2 mod 2 <> 0 /\ 5 mod 2 = 0)) /\
  0 < (2 / 2) * (5 / 2) * 1 * 1 /\
  exists emptied,
    bin_real cube_2x5x1x1 (PyInt 2)
    = Raise ValueError (set_data4D cube_2x5x1x1 emptied) /\
    flat emptied = [].
Proof.
  assert (Hwf := cube_2x5x1x1_wf).
  assert (Hs : shape (data4D cube_2x5x1x1) = [2; 5; 1; 1]) by reflexivity.
  assert (Hf : 1 < 2) by lia.
  assert (Hone : (2 mod 2 = 0 /\ 5 mod 2 <> 0) \/ (2 mod 2 <> 0 /\ 5 mod 2 = 0))
    by (left; split; [reflexivity|vm_compute; discriminate]).
  assert (Hpos : 0 < (2 / 2) * (5 / 2) * 1 * 1) by reflexivity.
  repeat (split; [assumption|]).
  destruct (bin_real_one_sided cube_2x5x1x1 2 2 5 1 1
              Hwf Hs Hf Hone Hpos) as (e & E & Hfl & _).
  exists e. by split.
Defined.

Lemma binning_factor_at_most_1_witness :
  at_most_1 (PyInt 1) /\ at_most_1 (PyFloat (Finite (1 # 2))) /\
  bin_diffraction cube_2x2x2x4 (PyFloat (Finite (1 # 2))) = Return cube_2x2x2x4 /\
  bin_real cube_2x2x2x4 (PyInt 1) = Return cube_2x2x2x4 /\
  cropAndBin cube_2x2x2x4 (PyInt 1) (PyFloat (Finite (1 # 2)))
  = Return cube_2x2x2x4.
Proof.
  assert (H1 : at_most_1 (PyInt 1)) by (cbn; lia).
  assert (H2 : at_most_1 (PyFloat (Finite (1 # 2)))) by (cbn; discriminate).
  repeat (split; [assumption|]).
  exact (binning_factor_at_most_1 cube_2x2x2x4 _ _ H1 H2).
Defined.




Lemma diffraction_view_in_range_witness :
  wf_ndarray (data4D cube_2x2x2x4) /\
  shape (data4D cube_2x2x2x4) = [2; 2; 2; 4] /\
  - 2 <= -1 < 2 /\ - 2 <= 0 < 2 /\
  exists image,
    get_diffraction_space_view cube_2x2x2x4 (-1) 0
    = ((0, -1), (ObjArray image, 1)) /\
    shape image = [4; 2] /\
    get2 image 1 0 = get4 (data4D cube_2x2x2x4) 1 0 0 1.
Proof.
  destruct cube_2x2x2x4_consistent as (Hwf & _ & _).
  assert (Hs : shape (data4D cube_2x2x2x4) = [2; 2; 2; 4]) by reflexivity.
  assert (Hy : - 2 <= -1 < 2) by lia.
  assert (Hx : - 2 <= 0 < 2) by lia.
  repeat (split; [assumption|]).
  destruct (diffraction_view_in_range cube_2x2x2x4 2 2 2 4 (-1) 0
              Hwf Hs Hy Hx) as (img & E & _ & Hsh & G).
  exists img. split; [exact E|]. split; [exact Hsh|].
  apply (G 0%nat 1%nat); vm_compute; lia.
Defined.

Lemma diffraction_view_out_of_range_witness :
  ((length (shape (data4D cube_2x2x2x4)) < 4)%nat \/
   (exists ry rx qy qx,
       shape (data4D cube_2x2x2x4) = [ry; rx; qy; qx] /\
       ~ (- ry <= 2 < ry /\ - rx <= 0 < rx))) /\
  get_diffraction_space_view cube_2x2x2x4 2 0 = ((0, 2), (ObjInt 0, 0)).
Proof.
  assert (H : (length (shape (data4D cube_2x2x2x4)) < 4)%nat \/
              (exists ry rx qy qx,
                  shape (data4D cube_2x2x2x4) = [ry; rx; qy; qx] /\
                  ~ (- ry <= 2 < ry /\ - rx <= 0 < rx))).
  { right. exists 2, 2, 2, 4. split; [reflexivity|lia]. }
  split; [exact H|].
  exact (diffraction_view_out_of_range cube_2x2x2x4 2 0 H).
Defined.



Lemma real_space_view_error_witness :
  let slice_x := mk_slice None None (Some 0) in
  (((length (shape (data4D cube_2x2x2x4)) < 4)%nat
    /\ OtherError ValueError = IndexError) \/
   ((4 <= length (shape (data4D cube_2x2x2x4)))%nat /\
    (sl_step full_slice = Some 0 \/ sl_step slice_x = Some 0) /\
    OtherError ValueError = OtherError ValueError)) /\
  get_real_space_view cube_2x2x2x4 full_slice slice_x
  = inl (OtherError ValueError).
Proof.
  cbv zeta.
  assert (H : ((length (shape (data4D cube_2x2x2x4)) < 4)%nat
               /\ OtherError ValueError = IndexError) \/
              ((4 <= length (shape (data4D cube_2x2x2x4)))%nat /\
               (sl_step full_slice = Some 0
                \/ sl_step (mk_slice None None (Some 0)) = Some 0) /\
               OtherError ValueError = OtherError ValueError)).
  { right. split; [vm_compute; lia|]. split; [by right|reflexivity]. }
  split; [exact H|].
  exact (real_space_view_error cube_2x2x2x4 _ _ _ H).
Defined.

Lemma get_metadata_pass_witness :
  NoDup original_to_microscope_search_dict.*1 /\
  get_metadata_from_original_metadata (Some tree_two_levels)
    original_to_microscope_search_dict ∅ !! "accelerating_voltage_kV"%string
  = Some (VInt 200).
Proof.
  assert (Hnd := search_dict_NoDup CatMicroscope).
  split; [exact Hnd|].
  destruct (get_metadata_pass (Some tree_two_levels)
              original_to_microscope_search_dict ∅ Hnd) as (_ & _ & Hfound & _).
  apply (Hfound "accelerating_voltage_kV"%string [] "beam_energy"%string []).
  - by left.
  - constructor.
  - reflexivity.
Defined.

Lemma get_metadata_absent_tree_witness :
  "camera_length_mm"%string ∈ original_to_microscope_search_dict.*1 /\
  get_metadata_from_original_metadata None
    original_to_microscope_search_dict ∅ !! "camera_length_mm"%string
  = Some (VStr EmptyString).
Proof.
  assert (Hin : "camera_length_mm"%string
                ∈ original_to_microscope_search_dict.*1)
    by (right; left).
  split; [exact Hin|].
  exact (get_metadata_absent_tree _ ∅ _ Hin).
Defined.
